(** * ServiceClient: the request pipeline client of ms-rest-js

    A shallow embedding of [ServiceClient] (constructor, [pipeline],
    [addUserAgentInfo], [sendRequest]) together with the chain builder
    [createRequestPipeline] it calls.

    JavaScript objects that the code mutates in place (the caller's options
    object, the [requestPolicyCreators] array, the user-agent token array) live
    in an explicit [Store]; a reference is an index into the store.  Code that
    can throw runs in a state-and-exception monad [M]: a computation maps a
    store to a completion ([Normal] value or [Throw]n error) and the store it
    leaves behind (mutations made before a throw persist, as in JavaScript).

    The sample script revokeTokens.js is embedded separately, in
    [RevokeTokensSample], as a script of awaited library calls and console
    output that is run against an environment. *)

From Stdlib Require Import ZArith String List Lia.
From stdpp Require Import base list.
Import ListNotations.

Open Scope string_scope.
Open Scope list_scope.

(** ** JavaScript basics *)

(** Errors built by [new Error(message)], and the [TypeError] the runtime
    raises when a property is read from something that is not there. *)
Inductive JsError : Type :=
| Error (message : string)
| TypeError (message : string).

(** The outcome of running a piece of code: it returns or it throws.  For an
    [async] function, [Normal] is the resolved and [Throw] the rejected
    promise. *)
Inductive Completion (A : Type) : Type :=
| Normal (a : A)
| Throw (e : JsError).
Arguments Normal {A} a.
Arguments Throw {A} e.

(** A reference to an object of the store. *)
Abbreviation loc := nat.

(** [Array.prototype.indexOf] on an array of strings: the first index whose
    element is strictly equal to [x], or -1. *)
Fixpoint indexOf_from (xs : list string) (x : string) (i : Z) : Z :=
  match xs with
  | [] => (-1)%Z
  | y :: ys => if String.eqb y x then i else indexOf_from ys x (i + 1)%Z
  end.

Definition indexOf (xs : list string) (x : string) : Z := indexOf_from xs x 0%Z.

(** ** The chain builder *)

(** Modelled from the spec: [createRequestPipeline] of ./requestPipeline, which
    is not among the sources.  "The factory supplied first becomes the
    outermost policy; each factory is invoked with the policy built from the
    remainder of the sequence as its inward delegate, so the terminal transport
    sender is always innermost." *)
Fixpoint createRequestPipeline {Policy : Type}
    (requestPolicyCreators : list (Policy -> Policy)) (transport : Policy) : Policy :=
  match requestPolicyCreators with
  | [] => transport
  | creator :: remainder => creator (createRequestPipeline remainder transport)
  end.

(** *** Observing a chain

    A sender is run on a request and a chronological log of events; it returns
    the response and the extended log. *)
Section Observation.
Context {Request Response : Type}.

Inductive Event : Type :=
| SawRequest (policy : string) (request : Request)
| Transport (request : Request)
| SawResponse (policy : string) (response : Response).

Definition Sender : Type := Request -> list Event -> Response * list Event.

(** A policy that delegates inward: it may rewrite the request before the
    inward call and the response after it. *)
Record Delegating : Type := {
  policyName : string;
  onRequest : Request -> Request;
  onResponse : Response -> Response;
}.

(** The factory of a delegating policy: given the inward sender, the policy
    sees the request, calls inward, then sees the response. *)
Definition delegatingPolicy (p : Delegating) (nextPolicy : Sender) : Sender :=
  fun request log =>
    let log1 := log ++ [SawRequest (policyName p) request] in
    let '(response, log2) := nextPolicy (onRequest p request) log1 in
    (onResponse p response, log2 ++ [SawResponse (policyName p) response]).

(** The terminal transport sender: answers with [respond request]. *)
Definition transportSender (respond : Request -> Response) : Sender :=
  fun request log => (respond request, log ++ [Transport request]).

(** What each policy of [ps] is handed on the request side, outermost first,
    when the chain is entered with [request]. *)
Fixpoint requestSide (ps : list Delegating) (request : Request) : list Event :=
  match ps with
  | [] => []
  | p :: rest => SawRequest (policyName p) request :: requestSide rest (onRequest p request)
  end.

(** The request that reaches the transport. *)
Definition outgoing (ps : list Delegating) (request : Request) : Request :=
  fold_left (fun r p => onRequest p r) ps request.

(** What each policy of [ps], taken in the order given, is handed on the
    response side when the first of them receives [response]. *)
Fixpoint responseSide (ps : list Delegating) (response : Response) : list Event :=
  match ps with
  | [] => []
  | p :: rest => SawResponse (policyName p) response :: responseSide rest (onResponse p response)
  end.

(** The response that leaves the chain. *)
Definition incoming (ps : list Delegating) (response : Response) : Response :=
  fold_left (fun r p => onResponse p r) ps response.

(** The policies that saw the request, and those that saw the response, in
    the order in which they did. *)
Definition requestOrder (log : list Event) : list string :=
  flat_map (fun e => match e with SawRequest p _ => [p] | _ => [] end) log.

Definition responseOrder (log : list Event) : list string :=
  flat_map (fun e => match e with SawResponse p _ => [p] | _ => [] end) log.
End Observation.
Arguments Event : clear implicits.
Arguments Sender : clear implicits.
Arguments Delegating : clear implicits.

(** ** The sample script revokeTokens.js

    The script talks to the service through [CommunicationIdentityClient] of
    @azure/communication-administration, which is not among the sources: its
    constructor and methods are calls answered by the environment, each either
    fulfilled with a result or rejected with a thrown value.  A run of the
    script is recorded as the sequence of these calls and of the console
    output. *)
Module RevokeTokensSample.

(** The line feed of the string literals ["Request: \n"] and
    ["\nResponse: \n"]. *)
Definition newline : string := String (Ascii.ascii_of_nat 10) EmptyString.

(** [process.env["CONNECTION_STRING"] || "<communication service connection
    string>"]: [env] is the variable after [dotenv.config()], [None] when it
    is not set. *)
Definition connectionString (env : option string) : string :=
  match env with
  | Some v =>
      if String.eqb v "" then "<communication service connection string>" else v
  | None => "<communication service connection string>"
  end.

(** What [createUser] and [issueToken] are fulfilled with, as far as the
    script reads them. *)
Record CommunicationUser : Type := { communicationUserId : string }.
Record CommunicationUserToken : Type := { token : string }.

(** A value a rejected call throws: [undefined], [null], or any other value,
    of which the script reads the [request] and [response] properties
    ([None] when the value has no such property). *)
Inductive Thrown : Type :=
| ThrownUndefined
| ThrownNull
| ThrownValue (requestProperty responseProperty : option string) (description : string).

(** A promise that has settled. *)
Inductive Settled (A : Type) : Type :=
| Fulfilled (a : A)
| Rejected (error : Thrown).
Arguments Fulfilled {A} a.
Arguments Rejected {A} error.

(** The TypeError the runtime raises when a property of [undefined] or
    [null] is read: an error object without [request] or [response]. *)
Definition propertyTypeError : Thrown := ThrownValue None None "TypeError".

(** [error.request] and [error.response]: reading a property of [undefined]
    or [null] throws, which inside an [async] function or a promise handler
    rejects its promise. *)
Definition request (error : Thrown) : Settled (option string) :=
  match error with
  | ThrownUndefined | ThrownNull => Rejected propertyTypeError
  | ThrownValue requestProperty _ _ => Fulfilled requestProperty
  end.

Definition response (error : Thrown) : Settled (option string) :=
  match error with
  | ThrownUndefined | ThrownNull => Rejected propertyTypeError
  | ThrownValue _ responseProperty _ => Fulfilled responseProperty
  end.

(** An argument of [console.log] or [console.error]. *)
Inductive Printed : Type :=
| Text (s : string)
| Property (v : option string)
| Whole (error : Thrown).

Section Script.
Context {Client Date : Type}.

(** The calls into the library: [new CommunicationIdentityClient(...)] and
    the three methods the script uses. *)
Inductive Call : Type :=
| newCommunicationIdentityClient (connectionString : string)
| createUser (client : Client)
| issueToken (client : Client) (user : CommunicationUser) (scopes : list string)
| revokeTokens (client : Client) (user : CommunicationUser) (tokensValidFrom : Date).

Definition Result (call : Call) : Type :=
  match call with
  | newCommunicationIdentityClient _ => Client
  | createUser _ => CommunicationUser
  | issueToken _ _ _ => CommunicationUserToken
  | revokeTokens _ _ _ => unit
  end.

(** An [async] function body: awaited calls, console output, [new Date()],
    and a throw. *)
Inductive Script (A : Type) : Type :=
| Return (a : A)
| Throw (error : Thrown)
| Await (call : Call) (k : Result call -> Script A)
| ConsoleLog (args : list Printed) (k : Script A)
| ConsoleError (args : list Printed) (k : Script A)
| NewDate (k : Date -> Script A).
Arguments Return {A} a.
Arguments Throw {A} error.
Arguments Await {A} call k.
Arguments ConsoleLog {A} args k.
Arguments ConsoleError {A} args k.
Arguments NewDate {A} k.

Definition main (connectionString : string) : Script unit :=
  ConsoleLog [Text "== Issue Token Sample =="]
  (Await (newCommunicationIdentityClient connectionString) (fun client =>
   let scopes := ["chat"] in
   ConsoleLog [Text "Creating User"]
   (Await (createUser client) (fun user =>
    ConsoleLog [Text ("Created user with id: " ++ communicationUserId user)]
    (ConsoleLog [Text "Issuing Tokens"]
    (Await (issueToken client user scopes) (fun issued1 =>
     let token1 := token issued1 in
     Await (issueToken client user scopes) (fun issued2 =>
     let token2 := token issued2 in
     Await (issueToken client user scopes) (fun issued3 =>
     let token3 := token issued3 in
     ConsoleLog [Text "Issued tokens:"]
     (ConsoleLog [Text token1]
     (ConsoleLog [Text token2]
     (ConsoleLog [Text token3]
     (ConsoleLog [Text "Revoking Tokens"]
     (NewDate (fun now =>
      Await (revokeTokens client user now) (fun _ =>
      ConsoleLog [Text "Tokens Revoked"]
      (Return tt))))))))))))))))).

(** The handler of [main().catch(...)].  The arguments of a [console.error]
    call are evaluated before the call is made. *)
Definition onRejected (error : Thrown) : Script unit :=
  ConsoleError [Text "Encountered an error while revoking tokens: "]
  (match request error with
   | Rejected typeError => Throw typeError
   | Fulfilled requestValue =>
       ConsoleError [Text ("Request: " ++ newline); Property requestValue]
       (match response error with
        | Rejected typeError => Throw typeError
        | Fulfilled responseValue =>
            ConsoleError [Text (newline ++ "Response: " ++ newline); Property responseValue]
            (ConsoleError [Whole error]
            (Return tt))
        end)
   end).

(** A script without a throw of its own: it can only be rejected by a
    call. *)
Fixpoint rejectedOnlyByCalls {A} (p : Script A) : Prop :=
  match p with
  | Return _ => True
  | Throw _ => False
  | Await call k => forall x, rejectedOnlyByCalls (k x)
  | ConsoleLog _ k => rejectedOnlyByCalls k
  | ConsoleError _ k => rejectedOnlyByCalls k
  | NewDate k => forall now, rejectedOnlyByCalls (k now)
  end.

(** What a run does, in order. *)
Inductive Event : Type :=
| Invoked (call : Call)
| Logged (args : list Printed)
| LoggedError (args : list Printed)
| ReadClock.

(** The environment: a world state, how it answers each call, and its
    clock. *)
Context {World : Type}.
Variable answer : forall call : Call, World -> Settled (Result call) * World.
Variable clock : World -> Date.

Fixpoint run {A} (p : Script A) (w : World) : Settled A * World * list Event :=
  match p with
  | Return a => (Fulfilled a, w, [])
  | Throw error => (Rejected error, w, [])
  | Await call k =>
      match answer call w with
      | (Fulfilled x, w1) =>
          let '(outcome, w2, events) := run (k x) w1 in
          (outcome, w2, Invoked call :: events)
      | (Rejected error, w1) => (Rejected error, w1, [Invoked call])
      end
  | ConsoleLog args k =>
      let '(outcome, w1, events) := run k w in (outcome, w1, Logged args :: events)
  | ConsoleError args k =>
      let '(outcome, w1, events) := run k w in (outcome, w1, LoggedError args :: events)
  | NewDate k =>
      let '(outcome, w1, events) := run (k (clock w)) w in (outcome, w1, ReadClock :: events)
  end.

(** [p.catch(handler)] *)
Definition catch {A} (p : Script A) (handler : Thrown -> Script A) (w : World)
    : Settled A * World * list Event :=
  match run p w with
  | (Fulfilled a, w1, events) => (Fulfilled a, w1, events)
  | (Rejected error, w1, events) =>
      let '(outcome, w2, events') := run (handler error) w1 in
      (outcome, w2, events ++ events')
  end.

(** The whole script: [main().catch(...)]. *)
Definition sample (env : option string) (w : World) : Settled unit * World * list Event :=
  catch (main (connectionString env)) onRejected w.

(** The calls into the library among the events of a run. *)
Definition invocations (events : list Event) : list Call :=
  flat_map (fun e => match e with Invoked call => [call] | _ => [] end) events.

(** The console.error calls among the events of a run. *)
Definition errorsLogged (events : list Event) : list (list Printed) :=
  flat_map (fun e => match e with LoggedError args => [args] | _ => [] end) events.
End Script.
Arguments Call : clear implicits.
Arguments Script : clear implicits.
Arguments Event : clear implicits.

(** *** Sample environments: clients are their connection strings, dates and
    worlds are numbers (the world counts the calls answered). *)

Definition serviceUp (call : Call string nat) (w : nat)
    : Settled (Result call) * nat :=
  match call as c return Settled (Result c) * nat with
  | newCommunicationIdentityClient cs => (Fulfilled cs, S w)
  | createUser _ => (Fulfilled {| communicationUserId := "8:acs:user" |}, S w)
  | issueToken _ _ _ => (Fulfilled {| token := "token" |}, S w)
  | revokeTokens _ _ _ => (Fulfilled tt, S w)
  end.

Definition unauthorized : Thrown :=
  ThrownValue (Some "POST /identities") (Some "401") "Unauthorized".

(** The service rejects [createUser]. *)
Definition serviceDenies (call : Call string nat) (w : nat)
    : Settled (Result call) * nat :=
  match call as c return Settled (Result c) * nat with
  | createUser _ => (Rejected unauthorized, S w)
  | call => serviceUp call w
  end.

(** The service rejects [createUser] with [null]. *)
Definition serviceRejectsWithNull (call : Call string nat) (w : nat)
    : Settled (Result call) * nat :=
  match call as c return Settled (Result c) * nat with
  | createUser _ => (Rejected ThrownNull, S w)
  | call => serviceUp call w
  end.

End RevokeTokensSample.

(** ** The client *)

Section ServiceClient.
(** [WebResource] (./webResource) and [HttpOperationResponse]
    (./httpOperationResponse) are not among the sources; neither is the type
    of the objects a caller may pass to [sendRequest] instead of a
    [WebResource]. *)
Variables WebResource HttpOperationResponse RequestPrepareOptions : Type.

(** [Constants.msRestVersion] of ./util/constants. *)
Variable msRestVersion : string.

(** [interface ServiceClientCredentials].  The constructor tests at run time
    whether the object has a [signRequest] member. *)
Record ServiceClientCredentials : Type := {
  signRequest : option (WebResource -> Completion WebResource);
}.

(** Modelled from the spec: the policy factories of ./filters/*, which are
    not among the sources.  A factory is the closure the filter function
    returns, kept as the function's name and the arguments it captured;
    [callerFilter] stands for any factory of the caller's own. *)
Inductive RequestPolicyCreator : Type :=
| signingFilter (authenticationProvider : ServiceClientCredentials)
| msRestUserAgentFilter (userAgentInfo : loc)
| redirectFilter
| rpRegistrationFilter (retryTimeout : option Z)
| exponentialRetryPolicyFilter
| systemErrorRetryPolicyFilter
| callerFilter (name : string).

(** [interface RequestPolicy]: a policy holds the factory that made it and
    its inward delegate; [httpClient] is the terminal transport sender. *)
Inductive RequestPolicy : Type :=
| httpClient
| policy (creator : RequestPolicyCreator) (nextPolicy : RequestPolicy).

(** The policies of a chain, outermost first. *)
Fixpoint policies (chain : RequestPolicy) : list RequestPolicyCreator :=
  match chain with
  | httpClient => []
  | policy creator nextPolicy => creator :: policies nextPolicy
  end.

(** [RequestInit] of the fetch API: an object literal, as its properties. *)
Definition RequestInit : Type := list (string * string).

(** [interface ServiceClientOptions]; [None] is an absent property. *)
Record ServiceClientOptions : Type := {
  requestOptions : option RequestInit;
  requestPolicyCreators : option loc;
  noRetryPolicy : option bool;
  rpRegistrationRetryTimeout : option Z;
}.

(** The object literal [{}]. *)
Definition emptyOptions : ServiceClientOptions :=
  {| requestOptions := None; requestPolicyCreators := None;
     noRetryPolicy := None; rpRegistrationRetryTimeout := None |}.

(** *** The store *)

Record Store : Type := {
  stringArrays : list (list string);
  creatorArrays : list (list RequestPolicyCreator);
  optionsObjects : list ServiceClientOptions;
  (** the requests that reached the network *)
  wire : list WebResource;
}.

Definition setStringArrays (f : list (list string) -> list (list string)) (s : Store) : Store :=
  {| stringArrays := f (stringArrays s); creatorArrays := creatorArrays s;
     optionsObjects := optionsObjects s; wire := wire s |}.

Definition setCreatorArrays
    (f : list (list RequestPolicyCreator) -> list (list RequestPolicyCreator)) (s : Store) : Store :=
  {| stringArrays := stringArrays s; creatorArrays := f (creatorArrays s);
     optionsObjects := optionsObjects s; wire := wire s |}.

Definition setOptionsObjects
    (f : list ServiceClientOptions -> list ServiceClientOptions) (s : Store) : Store :=
  {| stringArrays := stringArrays s; creatorArrays := creatorArrays s;
     optionsObjects := f (optionsObjects s); wire := wire s |}.

(** *** The monad *)

Definition M (A : Type) : Type := Store -> Completion A * Store.

Definition ret {A} (a : A) : M A := fun s => (Normal a, s).

Definition bind {A B} (m : M A) (k : A -> M B) : M B :=
  fun s =>
    match m s with
    | (Normal a, s') => k a s'
    | (Throw e, s') => (Throw e, s')
    end.

Definition throw {A} (e : JsError) : M A := fun s => (Throw e, s).

(** [try { m } catch (err) { handler err }] *)
Definition tryCatch {A} (m : M A) (handler : JsError -> M A) : M A :=
  fun s =>
    match m s with
    | (Normal a, s') => (Normal a, s')
    | (Throw e, s') => handler e s'
    end.

(** A method that may throw but does not touch the store. *)
Definition lift {A} (c : Completion A) : M A := fun s => (c, s).

Notation "'let*' x ':=' m 'in' k" := (bind m (fun x => k))
  (at level 10, x name, m at level 100, k at level 200, only parsing).
Notation "m ';;;' k" := (bind m (fun _ => k))
  (at level 100, k at level 200, right associativity, only parsing).

(** *** Arrays and options objects *)

(** The array literal [[]] of strings. *)
Definition newStringArray : M loc :=
  fun s => (Normal (length (stringArrays s)), setStringArrays (fun h => h ++ [[]]) s).

Definition readStringArray (a : loc) : M (list string) :=
  fun s =>
    match stringArrays s !! a with
    | Some xs => (Normal xs, s)
    | None => (Throw (TypeError "not an array"), s)
    end.

(** [a.push(x)] *)
Definition pushString (a : loc) (x : string) : M unit :=
  let* xs := readStringArray a in
  fun s => (Normal tt, setStringArrays (fun h => <[a := xs ++ [x]]> h) s).

(** The array literal [[]] of policy factories. *)
Definition newCreatorArray : M loc :=
  fun s => (Normal (length (creatorArrays s)), setCreatorArrays (fun h => h ++ [[]]) s).

Definition readCreatorArray (a : loc) : M (list RequestPolicyCreator) :=
  fun s =>
    match creatorArrays s !! a with
    | Some cs => (Normal cs, s)
    | None => (Throw (TypeError "not an array"), s)
    end.

Definition pushCreator (a : loc) (c : RequestPolicyCreator) : M unit :=
  let* cs := readCreatorArray a in
  fun s => (Normal tt, setCreatorArrays (fun h => <[a := cs ++ [c]]> h) s).

Definition newOptionsObject (o : ServiceClientOptions) : M loc :=
  fun s => (Normal (length (optionsObjects s)), setOptionsObjects (fun h => h ++ [o]) s).

Definition readOptions (options : loc) : M ServiceClientOptions :=
  fun s =>
    match optionsObjects s !! options with
    | Some o => (Normal o, s)
    | None => (Throw (TypeError "not an object"), s)
    end.

Definition writeOptions (options : loc) (o : ServiceClientOptions) : M unit :=
  fun s => (Normal tt, setOptionsObjects (fun h => <[options := o]> h) s).

(** [options.requestPolicyCreators.push(c)] *)
Definition pushRequestPolicyCreator (options : loc) (c : RequestPolicyCreator) : M unit :=
  let* o := readOptions options in
  match requestPolicyCreators o with
  | Some a => pushCreator a c
  | None => throw (TypeError "Cannot read property 'push' of undefined")
  end.

(** *** class ServiceClient *)

Record UserAgentInfo : Type := { value : loc }.

(** [httpRequestSender] is undefined until the constructor assigns it. *)
Record ServiceClient : Type := {
  userAgentInfo : UserAgentInfo;
  httpRequestSender : option RequestPolicy;
}.

Definition addUserAgentInfo (this : ServiceClient) (additionalUserAgentInfo : string) : M unit :=
  let* tokens := readStringArray (value (userAgentInfo this)) in
  if (indexOf tokens additionalUserAgentInfo =? -1)%Z
  then pushString (value (userAgentInfo this)) additionalUserAgentInfo
  else ret tt.

(** [!options.noRetryPolicy] *)
Definition retryPolicyWanted (o : ServiceClientOptions) : bool :=
  match noRetryPolicy o with
  | Some true => false
  | Some false | None => true
  end.

Definition constructor (credentials : option ServiceClientCredentials) (options : option loc)
    : M ServiceClient :=
  let* options :=
    match options with
    | None => newOptionsObject emptyOptions
    | Some options => ret options
    end in
  let* o := readOptions options in
  match requestOptions o with
  | None =>
      writeOptions options
        {| requestOptions := Some []; requestPolicyCreators := requestPolicyCreators o;
           noRetryPolicy := noRetryPolicy o;
           rpRegistrationRetryTimeout := rpRegistrationRetryTimeout o |}
  | Some _ => ret tt
  end;;;
  let* tokens := newStringArray in
  let this := {| userAgentInfo := {| value := tokens |}; httpRequestSender := None |} in
  match credentials with
  | Some c =>
      match signRequest c with
      | None => throw (Error "credentials argument needs to implement signRequest method")
      | Some _ => ret tt
      end
  | None => ret tt
  end;;;
  tryCatch
    (let moduleName := "ms-rest-js" in
     let moduleVersion := msRestVersion in
     addUserAgentInfo this (moduleName ++ "/" ++ moduleVersion))
    (fun err => ret tt);;;
  let* o := readOptions options in
  match requestPolicyCreators o with
  | None =>
      let* creators := newCreatorArray in
      writeOptions options
        {| requestOptions := requestOptions o; requestPolicyCreators := Some creators;
           noRetryPolicy := noRetryPolicy o;
           rpRegistrationRetryTimeout := rpRegistrationRetryTimeout o |}
  | Some _ => ret tt
  end;;;
  match credentials with
  | Some c => pushRequestPolicyCreator options (signingFilter c)
  | None => ret tt
  end;;;
  pushRequestPolicyCreator options (msRestUserAgentFilter (value (userAgentInfo this)));;;
  pushRequestPolicyCreator options redirectFilter;;;
  let* o := readOptions options in
  pushRequestPolicyCreator options (rpRegistrationFilter (rpRegistrationRetryTimeout o));;;
  let* o := readOptions options in
  (if retryPolicyWanted o
   then pushRequestPolicyCreator options exponentialRetryPolicyFilter;;;
        pushRequestPolicyCreator options systemErrorRetryPolicyFilter
   else ret tt);;;
  let* o := readOptions options in
  match requestPolicyCreators o with
  | Some a =>
      let* creators := readCreatorArray a in
      ret {| userAgentInfo := userAgentInfo this;
             httpRequestSender := Some (createRequestPipeline (map policy creators) httpClient) |}
  | None => throw (TypeError "requestPolicyCreators is undefined")
  end.

(** *** Sending *)

(** A chain whose policies all delegate inward unchanged: the request
    reaches the network, which answers with [respond request]. *)
Definition wireSender (respond : WebResource -> HttpOperationResponse)
    (chain : RequestPolicy) (request : WebResource) : M HttpOperationResponse :=
  fun s =>
    (Normal (respond request),
     {| stringArrays := stringArrays s; creatorArrays := creatorArrays s;
        optionsObjects := optionsObjects s; wire := wire s ++ [request] |}).

(** The behaviour of a built chain, [RequestPolicy.sendRequest]: the policy
    classes are not among the sources. *)
Variable policySendRequest : RequestPolicy -> WebResource -> M HttpOperationResponse.

(** [this.httpRequestSender.sendRequest(request)] *)
Definition httpRequestSender_sendRequest (this : ServiceClient) (request : WebResource)
    : M HttpOperationResponse :=
  match httpRequestSender this with
  | Some sender => policySendRequest sender request
  | None => throw (TypeError "Cannot read property 'sendRequest' of undefined")
  end.

Definition pipeline (this : ServiceClient) (request : WebResource) : M HttpOperationResponse :=
  httpRequestSender_sendRequest this request.

(** The values a caller can hand to [sendRequest]. *)
Inductive JsValue : Type :=
| JsUndefined
| JsNull
| JsBoolean (b : bool)
| JsNumber (n : Z)
| JsString (s : string)
| JsFunction (name : string)
| JsWebResource (request : WebResource)
| JsObject (o : RequestPrepareOptions).

Definition typeof (v : JsValue) : string :=
  match v with
  | JsUndefined => "undefined"
  | JsNull => "object"
  | JsBoolean _ => "boolean"
  | JsNumber _ => "number"
  | JsString _ => "string"
  | JsFunction _ => "function"
  | JsWebResource _ => "object"
  | JsObject _ => "object"
  end.

(** [v === null] and [v === undefined] *)
Definition isNull (v : JsValue) : bool :=
  match v with JsNull => true | _ => false end.

Definition isUndefined (v : JsValue) : bool :=
  match v with JsUndefined => true | _ => false end.

(** [v instanceof WebResource], with the instance when it is one. *)
Definition instanceofWebResource (v : JsValue) : option WebResource :=
  match v with JsWebResource request => Some request | _ => None end.

(** [WebResource.validateRequestProperties], [new WebResource()] and
    [WebResource.prepare] of ./webResource. *)
Variable validateRequestProperties : WebResource -> Completion unit.
Variable newWebResource : WebResource.
Variable prepare : WebResource -> JsValue -> Completion WebResource.

Definition sendRequest (this : ServiceClient) (options : JsValue) : M HttpOperationResponse :=
  if isNull options || isUndefined options || negb (String.eqb (typeof options) "object")
  then throw (Error "options cannot be null or undefined and it must be of type object.")
  else
    let* httpRequest :=
      tryCatch
        (match instanceofWebResource options with
         | Some request =>
             lift (validateRequestProperties request);;;
             ret request
         | None =>
             let httpRequest := newWebResource in
             lift (prepare httpRequest options)
         end)
        (fun error => throw error) in
    let* operationResponse :=
      tryCatch (httpRequestSender_sendRequest this httpRequest) (fun err => throw err) in
    ret operationResponse.

(** *** Derived observations *)

(** The tokens accumulated by a client, if its array is in the store. *)
Definition tokensOf (this : ServiceClient) (s : Store) : option (list string) :=
  stringArrays s !! value (userAgentInfo this).

(** No token occurs twice. *)
Definition atMostOnce (xs : list string) : Prop :=
  forall token, count_occ string_dec xs token <= 1.

(** A sequence of [addUserAgentInfo] calls. *)
Fixpoint addUserAgentInfos (this : ServiceClient) (tokens : list string) : M unit :=
  match tokens with
  | [] => ret tt
  | token :: rest => addUserAgentInfo this token;;; addUserAgentInfos this rest
  end.

(** The entries of the caller's [requestPolicyCreators] array as they are
    when the constructor is called ([[]] when none is supplied). *)
Definition callerCreators (options : option loc) (s : Store) : list RequestPolicyCreator :=
  match options with
  | None => []
  | Some options =>
      match optionsObjects s !! options with
      | Some o =>
          match requestPolicyCreators o with
          | Some a => default [] (creatorArrays s !! a)
          | None => []
          end
      | None => []
      end
  end.

(** The [options] argument is absent or refers to an object. *)
Definition optionsArgumentOk (options : option loc) (s : Store) : bool :=
  match options with
  | None => true
  | Some options => Nat.ltb options (length (optionsObjects s))
  end.

(** The credentials argument is absent or has a [signRequest] member: the
    negation of [credentials && !credentials.signRequest]. *)
Definition credentialsArgumentOk (credentials : option ServiceClientCredentials) : bool :=
  match credentials with
  | Some c => match signRequest c with Some _ => true | None => false end
  | None => true
  end.

Definition isSigningFilter (c : RequestPolicyCreator) : bool :=
  match c with signingFilter _ => true | _ => false end.

Definition isExponentialRetry (c : RequestPolicyCreator) : bool :=
  match c with exponentialRetryPolicyFilter => true | _ => false end.

Definition isSystemErrorRetry (c : RequestPolicyCreator) : bool :=
  match c with systemErrorRetryPolicyFilter => true | _ => false end.

(** The library token the constructor adds. *)
Definition libraryToken : string := "ms-rest-js" ++ "/" ++ msRestVersion.

(** The caller's options object as it is when the constructor is called
    ([{}] when none is supplied). *)
Definition callerOptions (options : option loc) (s : Store) : ServiceClientOptions :=
  match options with
  | None => emptyOptions
  | Some options => default emptyOptions (optionsObjects s !! options)
  end.

(** Where the constructor finds or puts the options object and the array of
    factories. *)
Definition optionsLoc (options : option loc) (s : Store) : loc :=
  match options with
  | None => length (optionsObjects s)
  | Some options => options
  end.

Definition creatorsLoc (options : option loc) (s : Store) : loc :=
  match requestPolicyCreators (callerOptions options s) with
  | None => length (creatorArrays s)
  | Some a => a
  end.

(** The factories the constructor pushes, in the order of its [push] calls. *)
Definition defaultCreators (credentials : option ServiceClientCredentials)
    (o : ServiceClientOptions) (tokens : loc) : list RequestPolicyCreator :=
  match credentials with Some c => [signingFilter c] | None => [] end
  ++ [msRestUserAgentFilter tokens; redirectFilter;
      rpRegistrationFilter (rpRegistrationRetryTimeout o)]
  ++ (if retryPolicyWanted o
      then [exponentialRetryPolicyFilter; systemErrorRetryPolicyFilter]
      else []).

(** The policies of the chain a client holds, outermost first. *)
Definition chainOf (this : ServiceClient) : list RequestPolicyCreator :=
  match httpRequestSender this with
  | Some chain => policies chain
  | None => []
  end.

(** A chain run with every policy delegating inward once, as [observe] says
    each policy does; [respond] is what the network answers. *)
Fixpoint observeChain {Request Response}
    (observe : RequestPolicyCreator -> Delegating Request Response)
    (respond : Request -> Response) (chain : RequestPolicy) : Sender Request Response :=
  match chain with
  | httpClient => transportSender respond
  | policy creator nextPolicy =>
      delegatingPolicy (observe creator) (observeChain observe respond nextPolicy)
  end.

(** *** Sample inputs *)

Definition emptyStore : Store :=
  {| stringArrays := []; creatorArrays := []; optionsObjects := []; wire := [] |}.

(** Credentials whose [signRequest] hands the request back unchanged. *)
Definition signingCredentials : ServiceClientCredentials :=
  {| signRequest := Some (fun request => Normal request) |}.

(** An object passed as credentials that has no [signRequest]. *)
Definition unsignedCredentials : ServiceClientCredentials :=
  {| signRequest := None |}.

(** A store in which a caller has prepared an options object (at 0) with one
    factory of their own in [requestPolicyCreators] (the array at 0), a
    registration timeout and [noRetryPolicy] set. *)
Definition callerStore : Store :=
  {| stringArrays := [];
     creatorArrays := [[callerFilter "logging"]];
     optionsObjects :=
       [{| requestOptions := None; requestPolicyCreators := Some 0;
           noRetryPolicy := Some true; rpRegistrationRetryTimeout := Some 30%Z |}];
     wire := [] |}.

(** A store in which a caller holds the options object [{}] (at 0). *)
Definition blankOptionsStore : Store :=
  {| stringArrays := []; creatorArrays := []; optionsObjects := [emptyOptions];
     wire := [] |}.

(** A store in which a caller has prepared an options object (at 0) with
    [noRetryPolicy] set and with the two retry factories as
    [requestPolicyCreators] (the array at 0). *)
Definition retryingCallerStore : Store :=
  {| stringArrays := [];
     creatorArrays := [[exponentialRetryPolicyFilter; systemErrorRetryPolicyFilter]];
     optionsObjects :=
       [{| requestOptions := None; requestPolicyCreators := Some 0;
           noRetryPolicy := Some true; rpRegistrationRetryTimeout := None |}];
     wire := [] |}.

(** A client whose token array is the array at 0 and whose chain is not
    built yet, and a store in which that array holds two tokens. *)
Definition bareClient : ServiceClient :=
  {| userAgentInfo := {| value := 0 |}; httpRequestSender := None |}.

Definition tokenStore : Store :=
  {| stringArrays := [["ms-rest-js/0.1.0"; "app/1.0"]]; creatorArrays := [];
     optionsObjects := []; wire := [] |}.

(** *** What the constructor leaves in the store *)

(** The options object after the constructor's two defaulting assignments:
    [requestOptions] as given or [{}], [requestPolicyCreators] referring to
    the array [a], the other two properties as given. *)
Definition defaultedOptions (o : ServiceClientOptions) (a : loc) : ServiceClientOptions :=
  {| requestOptions := Some (default [] (requestOptions o));
     requestPolicyCreators := Some a;
     noRetryPolicy := noRetryPolicy o;
     rpRegistrationRetryTimeout := rpRegistrationRetryTimeout o |}.

(** The options objects and the arrays of factories once the objects the
    constructor creates ([{}] for absent options, [[]] for an absent
    [requestPolicyCreators]) are allocated. *)
Definition optionsAllocated (options : option loc) (s : Store) : list ServiceClientOptions :=
  match options with
  | Some _ => optionsObjects s
  | None => optionsObjects s ++ [emptyOptions]
  end.

Definition creatorsAllocated (options : option loc) (s : Store)
    : list (list RequestPolicyCreator) :=
  match requestPolicyCreators (callerOptions options s) with
  | Some _ => creatorArrays s
  | None => creatorArrays s ++ [[]]
  end.

(** The caller's [requestPolicyCreators], if any, refers to an array. *)
Definition creatorsArgumentOk (options : option loc) (s : Store) : bool :=
  match requestPolicyCreators (callerOptions options s) with
  | Some a => Nat.ltb a (length (creatorArrays s))
  | None => true
  end.

Set Default Proof Using "Type".

(** ** Running the monad *)

Lemma bind_normal_inv {A B} (m : M A) (k : A -> M B) s b s2 :
  bind m k s = (Normal b, s2) ->
  exists a s1, m s = (Normal a, s1) /\ k a s1 = (Normal b, s2).
Proof.
  unfold bind. destruct (m s) as [[a|e] s1]; intros H.
  - exists a, s1. split; [reflexivity | exact H].
  - discriminate H.
Qed.

Lemma bind_run {A B} (m : M A) (k : A -> M B) s a s1 :
  m s = (Normal a, s1) -> bind m k s = k a s1.
Proof. unfold bind. intros ->. reflexivity. Qed.

Lemma bind_throw {A B} (m : M A) (k : A -> M B) s e s1 :
  m s = (Throw e, s1) -> bind m k s = (Throw e, s1).
Proof. unfold bind. intros ->. reflexivity. Qed.

Lemma readOptions_run l s o :
  optionsObjects s !! l = Some o -> readOptions l s = (Normal o, s).
Proof. unfold readOptions. intros ->. reflexivity. Qed.

Lemma readOptions_inv l s o s1 :
  readOptions l s = (Normal o, s1) -> s1 = s /\ optionsObjects s !! l = Some o.
Proof.
  unfold readOptions. destruct (optionsObjects s !! l); intros H; inversion H; auto.
Qed.

Lemma readStringArray_run a s xs :
  stringArrays s !! a = Some xs -> readStringArray a s = (Normal xs, s).
Proof. unfold readStringArray. intros ->. reflexivity. Qed.

Lemma readCreatorArray_run a s cs :
  creatorArrays s !! a = Some cs -> readCreatorArray a s = (Normal cs, s).
Proof. unfold readCreatorArray. intros ->. reflexivity. Qed.

Lemma readCreatorArray_inv a s cs s1 :
  readCreatorArray a s = (Normal cs, s1) -> s1 = s /\ creatorArrays s !! a = Some cs.
Proof.
  unfold readCreatorArray. destruct (creatorArrays s !! a); intros H; inversion H; auto.
Qed.

Lemma pushString_run a x s xs :
  stringArrays s !! a = Some xs ->
  pushString a x s = (Normal tt, setStringArrays (fun h => <[a := xs ++ [x]]> h) s).
Proof.
  intros H. unfold pushString. rewrite (bind_run _ _ _ _ _ (readStringArray_run _ _ _ H)).
  reflexivity.
Qed.

Lemma pushCreator_run a c s cs :
  creatorArrays s !! a = Some cs ->
  pushCreator a c s = (Normal tt, setCreatorArrays (fun h => <[a := cs ++ [c]]> h) s).
Proof.
  intros H. unfold pushCreator. rewrite (bind_run _ _ _ _ _ (readCreatorArray_run _ _ _ H)).
  reflexivity.
Qed.

Lemma pushRequestPolicyCreator_inv l c s u s1 :
  pushRequestPolicyCreator l c s = (Normal u, s1) ->
  exists o a cs,
    optionsObjects s !! l = Some o /\ requestPolicyCreators o = Some a /\
    creatorArrays s !! a = Some cs /\
    s1 = setCreatorArrays (fun h => <[a := cs ++ [c]]> h) s.
Proof.
  unfold pushRequestPolicyCreator. intros H.
  apply bind_normal_inv in H as (o & s0 & Hread & H).
  apply readOptions_inv in Hread as [-> Ho].
  destruct (requestPolicyCreators o) as [a|] eqn:Ha; [|discriminate H].
  unfold pushCreator in H.
  apply bind_normal_inv in H as (cs & s0 & Hread & H).
  apply readCreatorArray_inv in Hread as [-> Hcs].
  inversion H. exists o, a, cs. auto.
Qed.

Lemma pushRequestPolicyCreator_run l c s o a cs :
  optionsObjects s !! l = Some o -> requestPolicyCreators o = Some a ->
  creatorArrays s !! a = Some cs ->
  pushRequestPolicyCreator l c s
  = (Normal tt, setCreatorArrays (fun h => <[a := cs ++ [c]]> h) s).
Proof.
  intros Ho Ha Hcs. unfold pushRequestPolicyCreator.
  rewrite (bind_run _ _ _ _ _ (readOptions_run _ _ _ Ho)), Ha.
  apply pushCreator_run, Hcs.
Qed.

(** ** Arrays *)

Lemma lookup_snoc_here {A} (h : list A) (x : A) : (h ++ [x]) !! length h = Some x.
Proof. apply list_lookup_middle. reflexivity. Qed.

Lemma lookup_written {A} (h : list A) (i : nat) (x y : A) :
  h !! i = Some y -> <[i := x]> h !! i = Some x.
Proof. intros H. apply list_lookup_insert_eq. eapply lookup_lt_Some, H. Qed.

Lemma insert_snoc_here {A} (h : list A) (x y : A) :
  <[length h := y]> (h ++ [x]) = h ++ [y].
Proof.
  rewrite insert_app_r_alt by lia. rewrite Nat.sub_diag. reflexivity.
Qed.

Lemma indexOf_from_absent xs x i :
  (0 <= i)%Z -> (indexOf_from xs x i = -1)%Z <-> ~ In x xs.
Proof.
  revert i. induction xs as [|y ys IH]; intros i Hi; simpl.
  - split; [intros _ [] | reflexivity].
  - destruct (String.eqb_spec y x) as [->|Hne].
    + split; [lia | intros H; exfalso; apply H; left; reflexivity].
    + rewrite IH by lia. split.
      * intros H [Heq|Hin]; [exact (Hne Heq) | exact (H Hin)].
      * intros H Hin. apply H. right. exact Hin.
Qed.

Lemma indexOf_absent xs x : (indexOf xs x =? -1)%Z = true <-> ~ In x xs.
Proof.
  unfold indexOf. rewrite Z.eqb_eq. apply indexOf_from_absent. lia.
Qed.

Lemma indexOf_present xs x : (indexOf xs x =? -1)%Z = false <-> In x xs.
Proof.
  destruct (indexOf xs x =? -1)%Z eqn:E.
  - apply indexOf_absent in E. split; [discriminate | intros Hin; contradiction].
  - split; [intros _ | reflexivity].
    destruct (in_dec string_dec x xs) as [Hin|Hout]; [exact Hin|].
    apply indexOf_absent in Hout. congruence.
Qed.

(** ** Chains *)

Lemma policies_createRequestPipeline (creators : list RequestPolicyCreator) :
  policies (createRequestPipeline (map policy creators) httpClient) = creators.
Proof.
  induction creators as [|c cs IH]; simpl; [reflexivity | now rewrite IH].
Qed.

(** ** Observed order of a chain *)

Lemma responseSide_app {Request Response} (ps qs : list (Delegating Request Response)) r :
  responseSide (ps ++ qs) r = responseSide ps r ++ responseSide qs (incoming ps r).
Proof.
  revert r. induction ps as [|p ps IH]; intros r; simpl; [reflexivity|].
  rewrite IH. reflexivity.
Qed.

Lemma incoming_app {Request Response} (ps qs : list (Delegating Request Response)) r :
  incoming (ps ++ qs) r = incoming qs (incoming ps r).
Proof. unfold incoming. apply fold_left_app. Qed.

Lemma delegating_chain_run {Request Response}
    (ps : list (Delegating Request Response)) (inner : Sender Request Response)
    request log :
  createRequestPipeline (map delegatingPolicy ps) inner request log
  = let '(response, log') := inner (outgoing ps request) (log ++ requestSide ps request) in
    (incoming (rev ps) response, log' ++ responseSide (rev ps) response).
Proof.
  revert request log. induction ps as [|p ps IH]; intros request log; simpl.
  - rewrite app_nil_r. destruct (inner request log) as [response log'].
    rewrite app_nil_r. reflexivity.
  - unfold delegatingPolicy at 1. rewrite IH. rewrite <- app_assoc. simpl.
    fold (outgoing ps (onRequest p request)).
    destruct (inner _ _) as [response log'].
    rewrite incoming_app, responseSide_app, app_assoc. reflexivity.
Qed.

Lemma requestOrder_requestSide {Request Response}
    (ps : list (Delegating Request Response)) request :
  requestOrder (requestSide ps request) = map policyName ps /\
  responseOrder (requestSide ps request) = [].
Proof.
  revert request. induction ps as [|p ps IH]; intros request; simpl; [auto|].
  destruct (IH (onRequest p request)) as [-> ->]. auto.
Qed.

Lemma responseOrder_responseSide {Request Response}
    (ps : list (Delegating Request Response)) response :
  responseOrder (responseSide ps response) = map policyName ps /\
  requestOrder (responseSide ps response) = [].
Proof.
  revert response. induction ps as [|p ps IH]; intros response; simpl; [auto|].
  destruct (IH (onResponse p response)) as [-> ->]. auto.
Qed.

(** The log of a chain of delegating policies around a transport. *)
Lemma delegating_chain_log {Request Response}
    (ps : list (Delegating Request Response)) respond request :
  createRequestPipeline (map delegatingPolicy ps) (transportSender respond) request []
  = (incoming (rev ps) (respond (outgoing ps request)),
     requestSide ps request ++ [Transport (outgoing ps request)]
     ++ responseSide (rev ps) (respond (outgoing ps request))).
Proof.
  rewrite delegating_chain_run. unfold transportSender. simpl.
  rewrite <- app_assoc. reflexivity.
Qed.

Lemma observeChain_createRequestPipeline {Request Response}
    (observe : RequestPolicyCreator -> Delegating Request Response) respond creators inner :
  observeChain observe respond (createRequestPipeline (map policy creators) inner)
  = createRequestPipeline (map delegatingPolicy (map observe creators))
      (observeChain observe respond inner).
Proof.
  induction creators as [|c cs IH]; simpl; [reflexivity | now rewrite IH].
Qed.

(** ** [addUserAgentInfo] *)

Lemma addUserAgentInfo_run this token s xs :
  tokensOf this s = Some xs ->
  addUserAgentInfo this token s
  = (Normal tt,
     if (indexOf xs token =? -1)%Z
     then setStringArrays (fun h => <[value (userAgentInfo this) := xs ++ [token]]> h) s
     else s).
Proof.
  unfold tokensOf, addUserAgentInfo. intros H.
  rewrite (bind_run _ _ _ _ _ (readStringArray_run _ _ _ H)).
  destruct (indexOf xs token =? -1)%Z.
  - apply pushString_run, H.
  - reflexivity.
Qed.

(** ** The constructor, step by step *)

(** What a successful [options.requestPolicyCreators.push(c)] leaves. *)
Lemma pushRequestPolicyCreator_frame l c s u s1 o a cs :
  pushRequestPolicyCreator l c s = (Normal u, s1) ->
  optionsObjects s !! l = Some o -> requestPolicyCreators o = Some a ->
  creatorArrays s !! a = Some cs ->
  optionsObjects s1 !! l = Some o /\ creatorArrays s1 !! a = Some (cs ++ [c]) /\
  stringArrays s1 = stringArrays s /\ wire s1 = wire s.
Proof.
  intros H Ho Ha Hcs. destruct u.
  rewrite (pushRequestPolicyCreator_run _ _ _ _ _ _ Ho Ha Hcs) in H.
  injection H as <-. simpl. repeat split; try assumption.
  eapply lookup_written, Hcs.
Qed.

Lemma pushRequestPolicyCreator_needs_array l c s u s1 o a :
  pushRequestPolicyCreator l c s = (Normal u, s1) ->
  optionsObjects s !! l = Some o -> requestPolicyCreators o = Some a ->
  creatorArrays s !! a <> None.
Proof.
  intros H Ho Ha Hnone.
  apply pushRequestPolicyCreator_inv in H as (o' & a' & cs & Ho' & Ha' & Hcs & _).
  congruence.
Qed.

Ltac push_step H Ho Ha Hcs Hsa Hw s1 :=
  let Hpush := fresh "Hpush" in
  apply bind_normal_inv in H as ([] & s1 & Hpush & H);
  apply (fun E => pushRequestPolicyCreator_frame _ _ _ _ _ _ _ _ E Ho Ha Hcs) in Hpush;
  clear Ho Hcs;
  destruct Hpush as (Ho & Hcs & Hpush & Hw');
  rewrite Hsa in Hpush; rewrite Hw in Hw'; clear Hsa Hw;
  rename Hpush into Hsa; rename Hw' into Hw.

Lemma constructor_inv credentials options s this s' :
  constructor credentials options s = (Normal this, s') ->
  let o := callerOptions options s in
  let tokens := length (stringArrays s) in
  let creators := callerCreators options s ++ defaultCreators credentials o tokens in
  userAgentInfo this = {| value := tokens |} /\
  httpRequestSender this = Some (createRequestPipeline (map policy creators) httpClient) /\
  stringArrays s' = stringArrays s ++ [[libraryToken]] /\
  creatorArrays s' !! creatorsLoc options s = Some creators /\
  wire s' = wire s /\
  optionsArgumentOk options s = true /\
  (forall c, credentials = Some c -> signRequest c <> None) /\
  (exists o', optionsObjects s' !! optionsLoc options s = Some o' /\
              requestPolicyCreators o' = Some (creatorsLoc options s)).
Proof.
  intros H. unfold constructor in H.
  (* if (!options) options = {} *)
  apply bind_normal_inv in H as (l & s1 & Hopt & H).
  apply bind_normal_inv in H as (o & s0 & Hread & H).
  apply readOptions_inv in Hread as [-> Ho].
  assert (Hl : l = optionsLoc options s /\ o = callerOptions options s /\
               optionsArgumentOk options s = true /\
               stringArrays s1 = stringArrays s /\ creatorArrays s1 = creatorArrays s /\
               wire s1 = wire s).
  { destruct options as [l0|]; simpl in *.
    - injection Hopt as <- <-. rewrite Ho. simpl.
      repeat split; try reflexivity.
      apply Nat.ltb_lt. eapply lookup_lt_Some, Ho.
    - injection Hopt as <- <-. simpl in Ho.
      rewrite lookup_snoc_here in Ho. injection Ho as <-. repeat split; reflexivity. }
  destruct Hl as (Hl & Hco & Hok & Hsa & Hca & Hw). clear Hopt.
  (* if (!options.requestOptions) options.requestOptions = {} *)
  apply bind_normal_inv in H as ([] & s2 & Hreq & H).
  assert (H2 : exists o2, optionsObjects s2 !! l = Some o2 /\
               requestPolicyCreators o2 = requestPolicyCreators o /\
               retryPolicyWanted o2 = retryPolicyWanted o /\
               rpRegistrationRetryTimeout o2 = rpRegistrationRetryTimeout o /\
               stringArrays s2 = stringArrays s /\ creatorArrays s2 = creatorArrays s /\
               wire s2 = wire s).
  { destruct (requestOptions o); injection Hreq as <-.
    - exists o. auto 10.
    - eexists. simpl. split; [eapply lookup_written, Ho|]. auto 10. }
  clear Hreq Ho Hsa Hca Hw s1.
  destruct H2 as (o2 & Ho & Hrpc & Hretry & Hto & Hsa & Hca & Hw).
  (* this.userAgentInfo = { value: [] } *)
  apply bind_normal_inv in H as (tokens & s3 & Hnew & H).
  assert (H3 : tokens = length (stringArrays s) /\
               optionsObjects s3 !! l = Some o2 /\
               stringArrays s3 = stringArrays s ++ [[]] /\
               creatorArrays s3 = creatorArrays s /\ wire s3 = wire s).
  { unfold newStringArray in Hnew. injection Hnew as <- <-. simpl.
    rewrite Hsa. auto. }
  clear Hnew Ho Hsa Hca Hw s2.
  destruct H3 as (Htokens & Ho & Hsa & Hca & Hw).
  (* the signRequest check *)
  apply bind_normal_inv in H as ([] & s4 & Hcred & H).
  assert (Hsign : s4 = s3 /\ forall c, credentials = Some c -> signRequest c <> None).
  { destruct credentials as [c|].
    - destruct (signRequest c) eqn:E; [|discriminate Hcred].
      injection Hcred as <-. split; [reflexivity|]. intros c' [= <-]. congruence.
    - injection Hcred as <-. split; [reflexivity | discriminate]. }
  destruct Hsign as [-> Hsign]. clear Hcred.
  (* the library token *)
  apply bind_normal_inv in H as ([] & s5 & Htok & H).
  assert (H5 : optionsObjects s5 !! l = Some o2 /\
               stringArrays s5 = stringArrays s ++ [[libraryToken]] /\
               creatorArrays s5 = creatorArrays s /\ wire s5 = wire s).
  { unfold tryCatch in Htok.
    rewrite (addUserAgentInfo_run _ _ _ []) in Htok
      by (unfold tokensOf; simpl; rewrite Hsa, Htokens; apply lookup_snoc_here).
    change (indexOf [] _ =? -1)%Z with true in Htok. simpl in Htok.
    injection Htok as <-. simpl. rewrite Hsa, Htokens, insert_snoc_here. auto. }
  clear Htok Ho Hsa Hca Hw s3.
  destruct H5 as (Ho & Hsa & Hca & Hw).
  (* if (!options.requestPolicyCreators) options.requestPolicyCreators = [] *)
  apply bind_normal_inv in H as (o3 & s0 & Hread & H).
  apply readOptions_inv in Hread as [-> Ho3].
  rewrite Ho in Ho3. injection Ho3 as <-.
  apply bind_normal_inv in H as ([] & s6 & Harr & H).
  assert (H6 : exists o6, optionsObjects s6 !! l = Some o6 /\
               requestPolicyCreators o6 = Some (creatorsLoc options s) /\
               retryPolicyWanted o6 = retryPolicyWanted o /\
               rpRegistrationRetryTimeout o6 = rpRegistrationRetryTimeout o /\
               stringArrays s6 = stringArrays s ++ [[libraryToken]] /\ wire s6 = wire s /\
               (creatorArrays s6 !! creatorsLoc options s = None
                \/ creatorArrays s6 !! creatorsLoc options s
                   = Some (callerCreators options s))).
  { unfold creatorsLoc. rewrite <- Hco.
    destruct (requestPolicyCreators o2) as [a|] eqn:Ea; rewrite <- Hrpc.
    - injection Harr as <-. exists o2.
      repeat (split; [solve [auto] |]).
      rewrite Hca.
      assert (callerCreators options s = default [] (creatorArrays s !! a)) as ->.
      { unfold callerCreators, callerOptions in *. destruct options as [l0|]; simpl in *.
        - subst l0. destruct (optionsObjects s !! l); simpl in *; subst o;
            [rewrite <- Hrpc; reflexivity | discriminate].
        - subst o. discriminate. }
      destruct (creatorArrays s !! a); [right | left]; reflexivity.
    - apply bind_normal_inv in Harr as (a & s0 & Hnew & Harr).
      unfold newCreatorArray in Hnew. injection Hnew as <- <-.
      injection Harr as <-. simpl. rewrite Hca.
      eexists. split; [eapply lookup_written, Ho|]. simpl.
      repeat (split; [solve [auto] |]).
      right. rewrite lookup_snoc_here. f_equal.
      unfold callerCreators, callerOptions in *. destruct options as [l0|]; [|reflexivity].
      simpl in *. subst l0. destruct (optionsObjects s !! l); [|reflexivity].
      simpl in *. subst o. rewrite <- Hrpc. reflexivity. }
  clear Harr Ho Hrpc Hretry Hto Hsa Hca Hw o2 s5.
  destruct H6 as (o6 & Ho & Ha & Hretry & Hto & Hsa & Hw & Hcs).
  set (a := creatorsLoc options s) in *.
  set (user := callerCreators options s) in *.
  (* the pushes *)
  apply bind_normal_inv in H as ([] & s7 & Hpush & H).
  assert (H7 : optionsObjects s7 !! l = Some o6 /\
               stringArrays s7 = stringArrays s ++ [[libraryToken]] /\ wire s7 = wire s /\
               (creatorArrays s7 !! a = None
                \/ creatorArrays s7 !! a
                   = Some (user ++ match credentials with
                                   | Some c => [signingFilter c]
                                   | None => []
                                   end))).
  { destruct credentials as [c|].
    - destruct Hcs as [Hnone|Hcs].
      + exfalso. eapply pushRequestPolicyCreator_needs_array; eauto.
      + destruct (pushRequestPolicyCreator_frame _ _ _ _ _ _ _ _ Hpush Ho Ha Hcs)
          as (? & ? & ? & ?).
        repeat split; try congruence. right. assumption.
    - injection Hpush as <-. rewrite app_nil_r. auto. }
  clear Hpush Ho Hsa Hw Hcs s6.
  destruct H7 as (Ho & Hsa & Hw & [Hnone|Hcs]).
  { apply bind_normal_inv in H as ([] & s8 & Hpush & _).
    exfalso. eapply pushRequestPolicyCreator_needs_array; eauto. }
  push_step H Ho Ha Hcs Hsa Hw s8.
  push_step H Ho Ha Hcs Hsa Hw s9.
  apply bind_normal_inv in H as (o' & s0 & Hread & H).
  apply readOptions_inv in Hread as [-> Ho'].
  rewrite Ho in Ho'. injection Ho' as <-.
  push_step H Ho Ha Hcs Hsa Hw s10.
  apply bind_normal_inv in H as (o' & s0 & Hread & H).
  apply readOptions_inv in Hread as [-> Ho'].
  rewrite Ho in Ho'. injection Ho' as <-.
  apply bind_normal_inv in H as ([] & s11 & Hretries & H).
  assert (H11 : optionsObjects s11 !! l = Some o6 /\
                stringArrays s11 = stringArrays s ++ [[libraryToken]] /\
                wire s11 = wire s /\
                creatorArrays s11 !! a
                = Some (user ++ defaultCreators credentials o tokens)).
  { unfold defaultCreators. rewrite <- Hretry, <- Hto.
    destruct (retryPolicyWanted o6).
    - push_step Hretries Ho Ha Hcs Hsa Hw s12.
      destruct (pushRequestPolicyCreator_frame _ _ _ _ _ _ _ _ Hretries Ho Ha Hcs)
        as (Ho' & Hcs' & Hsa' & Hw').
      repeat split; try congruence.
      rewrite Hcs'. f_equal. simpl. rewrite <- !app_assoc. reflexivity.
    - injection Hretries as <-. repeat split; try assumption.
      rewrite Hcs. f_equal. simpl. rewrite <- !app_assoc. reflexivity. }
  clear Hretries Ho Hsa Hw Hcs s10.
  destruct H11 as (Ho & Hsa & Hw & Hcs).
  (* this.httpRequestSender = createRequestPipeline(options.requestPolicyCreators) *)
  apply bind_normal_inv in H as (o' & s0 & Hread & H).
  apply readOptions_inv in Hread as [-> Ho'].
  rewrite Ho in Ho'. injection Ho' as <-.
  rewrite Ha in H.
  apply bind_normal_inv in H as (creators & s0 & Hread & H).
  apply readCreatorArray_inv in Hread as [-> Hcs'].
  rewrite Hcs in Hcs'. injection Hcs' as <-.
  injection H as <- <-. simpl. subst tokens o l.
  repeat split; try (assumption || reflexivity).
  eexists. split; eassumption.
Qed.

(** ** What the constructor registers *)

Lemma chainOf_constructor credentials options s this s' :
  constructor credentials options s = (Normal this, s') ->
  httpRequestSender this <> None /\
  chainOf this
  = callerCreators options s
    ++ defaultCreators credentials (callerOptions options s) (length (stringArrays s)).
Proof.
  intros H. apply constructor_inv in H. cbv zeta in H.
  destruct H as (_ & Hsender & _). unfold chainOf. rewrite Hsender.
  split; [discriminate | apply policies_createRequestPipeline].
Qed.

Lemma registered_constructor credentials options s this s' :
  constructor credentials options s = (Normal this, s') ->
  drop (length (callerCreators options s)) (chainOf this)
  = defaultCreators credentials (callerOptions options s) (length (stringArrays s)).
Proof.
  intros H. apply chainOf_constructor in H as [_ ->]. apply drop_app_length.
Qed.

Lemma existsb_signing_defaults credentials o tokens :
  existsb isSigningFilter (defaultCreators credentials o tokens)
  = match credentials with Some _ => true | None => false end.
Proof.
  unfold defaultCreators. destruct credentials, (retryPolicyWanted o); reflexivity.
Qed.

Lemma existsb_retries_defaults credentials o tokens :
  existsb isExponentialRetry (defaultCreators credentials o tokens) = retryPolicyWanted o /\
  existsb isSystemErrorRetry (defaultCreators credentials o tokens) = retryPolicyWanted o.
Proof.
  unfold defaultCreators. destruct credentials, (retryPolicyWanted o); split; reflexivity.
Qed.

Lemma defaultCreators_retries credentials o tokens :
  retryPolicyWanted o = true ->
  defaultCreators credentials o tokens
  = (match credentials with Some c => [signingFilter c] | None => [] end
     ++ [msRestUserAgentFilter tokens; redirectFilter;
         rpRegistrationFilter (rpRegistrationRetryTimeout o)])
    ++ [exponentialRetryPolicyFilter; systemErrorRetryPolicyFilter].
Proof.
  unfold defaultCreators. intros ->. rewrite <- app_assoc. reflexivity.
Qed.

Lemma createRequestPipeline_app {Policy} (cs ds : list (Policy -> Policy)) inner :
  createRequestPipeline (cs ++ ds) inner
  = createRequestPipeline cs (createRequestPipeline ds inner).
Proof.
  induction cs as [|c cs IH]; simpl; [reflexivity | now rewrite IH].
Qed.

(** ** The token array *)

Lemma tokensOf_written this s xs ys :
  tokensOf this s = Some xs ->
  tokensOf this (setStringArrays (fun h => <[value (userAgentInfo this) := ys]> h) s)
  = Some ys.
Proof. unfold tokensOf. simpl. apply lookup_written. Qed.

Lemma addUserAgentInfo_new this token s xs :
  tokensOf this s = Some xs -> ~ In token xs ->
  addUserAgentInfo this token s
  = (Normal tt,
     setStringArrays (fun h => <[value (userAgentInfo this) := xs ++ [token]]> h) s).
Proof.
  intros H Hout. rewrite (addUserAgentInfo_run _ _ _ _ H).
  apply indexOf_absent in Hout. rewrite Hout. reflexivity.
Qed.

Lemma addUserAgentInfo_present this token s xs :
  tokensOf this s = Some xs -> In token xs ->
  addUserAgentInfo this token s = (Normal tt, s).
Proof.
  intros H Hin. rewrite (addUserAgentInfo_run _ _ _ _ H).
  apply indexOf_present in Hin. rewrite Hin. reflexivity.
Qed.

(** One call: the array afterwards. *)
Lemma addUserAgentInfo_tokens this token s xs :
  tokensOf this s = Some xs ->
  exists s1,
    addUserAgentInfo this token s = (Normal tt, s1) /\
    tokensOf this s1
    = Some (xs ++ if in_dec string_dec token xs then [] else [token]).
Proof.
  intros H. destruct (in_dec string_dec token xs) as [Hin|Hout].
  - exists s. rewrite app_nil_r. split; [|exact H].
    eapply addUserAgentInfo_present; eassumption.
  - eexists. split; [eapply addUserAgentInfo_new; eassumption|].
    eapply tokensOf_written, H.
Qed.

Lemma atMostOnce_snoc xs token :
  atMostOnce xs -> ~ In token xs -> atMostOnce (xs ++ [token]).
Proof.
  intros Hxs Hout t. rewrite count_occ_app. simpl.
  destruct (string_dec token t) as [<-|Hne].
  - apply (count_occ_not_In string_dec) in Hout. lia.
  - specialize (Hxs t). lia.
Qed.

(** A sequence of calls: the array only grows at its end, and stays free of
    repetitions. *)
Lemma addUserAgentInfos_tokens this tokens :
  forall s xs,
    tokensOf this s = Some xs ->
    exists s2 added,
      addUserAgentInfos this tokens s = (Normal tt, s2) /\
      tokensOf this s2 = Some (xs ++ added) /\
      (atMostOnce xs -> atMostOnce (xs ++ added)).
Proof.
  induction tokens as [|t ts IH]; intros s xs H; simpl.
  - exists s, []. rewrite app_nil_r. auto.
  - destruct (addUserAgentInfo_tokens this t s xs H) as (s1 & Hrun & H1).
    destruct (IH _ _ H1) as (s2 & added & Hruns & H2 & Hdup).
    exists s2. eexists. rewrite (bind_run _ _ _ _ _ Hrun).
    split; [exact Hruns|]. split; [rewrite H2, <- app_assoc; reflexivity|].
    intros Hxs. rewrite app_assoc. apply Hdup.
    destruct (in_dec string_dec t xs) as [Hin|Hout].
    + rewrite app_nil_r. exact Hxs.
    + apply atMostOnce_snoc; assumption.
Qed.

Lemma constructor_tokens credentials options s this s' :
  constructor credentials options s = (Normal this, s') ->
  tokensOf this s' = Some [libraryToken].
Proof.
  intros H. apply constructor_inv in H. cbv zeta in H.
  destruct H as (Hua & _ & Hsa & _). unfold tokensOf. rewrite Hua, Hsa. simpl.
  apply lookup_snoc_here.
Qed.

Lemma atMostOnce_singleton token : atMostOnce [token].
Proof. intros t. simpl. destruct (string_dec token t); lia. Qed.

(** ** The constructor returns *)

Lemma bind_returns {A B} (m : M A) (k : A -> M B) s a s1 :
  m s = (Normal a, s1) ->
  (exists b s2, k a s1 = (Normal b, s2)) ->
  exists b s2, bind m k s = (Normal b, s2).
Proof. intros Hm Hk. rewrite (bind_run _ _ _ _ _ Hm). exact Hk. Qed.

Ltac array_lookup := simpl; repeat (eapply lookup_written); eassumption.

Ltac push_returns :=
  eapply bind_returns;
  [ eapply pushRequestPolicyCreator_run; [array_lookup | eassumption | array_lookup] | ].

Ltac read_returns :=
  eapply bind_returns; [ eapply readOptions_run; array_lookup | ].

(** With an [options] argument that is absent or an object, whose
    [requestPolicyCreators], if any, is an array, and credentials that, if
    any, can sign, the constructor returns a client. *)
Lemma constructor_returns credentials options s :
  optionsArgumentOk options s = true ->
  (forall a, requestPolicyCreators (callerOptions options s) = Some a ->
             creatorArrays s !! a <> None) ->
  (forall c, credentials = Some c -> signRequest c <> None) ->
  exists this s', constructor credentials options s = (Normal this, s').
Proof.
  intros Hok Harr Hsign. unfold constructor.
  assert (Hopt : exists l s1 o,
             match options with
             | Some options => ret options
             | None => newOptionsObject emptyOptions
             end s = (Normal l, s1) /\
             optionsObjects s1 !! l = Some o /\ o = callerOptions options s /\
             creatorArrays s1 = creatorArrays s).
  { destruct options as [l|]; simpl in Hok.
    - apply Nat.ltb_lt, lookup_lt_is_Some in Hok. destruct Hok as [o Ho].
      exists l, s, o. unfold callerOptions. rewrite Ho. auto.
    - eexists _, _, emptyOptions. split; [reflexivity|]. simpl.
      split; [apply lookup_snoc_here | auto]. }
  destruct Hopt as (l & s1 & o & Hrun & Ho & Hco & Hca). rewrite <- Hco in Harr.
  clear Hok Hco.
  eapply bind_returns; [exact Hrun|]. clear Hrun.
  read_returns.
  (* requestOptions *)
  assert (H2 : exists s2 o2,
             match requestOptions o with
             | Some _ => ret tt
             | None =>
                 writeOptions l
                   {| requestOptions := Some []; requestPolicyCreators := requestPolicyCreators o;
                      noRetryPolicy := noRetryPolicy o;
                      rpRegistrationRetryTimeout := rpRegistrationRetryTimeout o |}
             end s1 = (Normal tt, s2) /\
             optionsObjects s2 !! l = Some o2 /\
             requestPolicyCreators o2 = requestPolicyCreators o /\
             creatorArrays s2 = creatorArrays s).
  { destruct (requestOptions o).
    - exists s1, o. auto.
    - eexists _, _. split; [reflexivity|]. simpl.
      split; [eapply lookup_written, Ho | auto]. }
  destruct H2 as (s2 & o2 & Hrun & Ho2 & Hrpc & Hca2).
  eapply bind_returns; [exact Hrun|]. clear Hrun Ho Hca s1.
  rewrite <- Hrpc in Harr. clear Hrpc o.
  (* the token array *)
  eapply bind_returns; [reflexivity|].
  eapply bind_returns.
  { destruct credentials as [c|]; [|reflexivity].
    specialize (Hsign c eq_refl). destruct (signRequest c); [reflexivity | congruence]. }
  eapply bind_returns.
  { unfold tryCatch.
    rewrite (addUserAgentInfo_run _ _ _ [])
      by (unfold tokensOf; simpl; apply lookup_snoc_here).
    reflexivity. }
  change (indexOf [] _ =? -1)%Z with true. cbv iota.
  set (s5 := setStringArrays _ (setStringArrays _ s2)).
  assert (Ho5 : optionsObjects s5 !! l = Some o2) by exact Ho2.
  assert (Hca5 : creatorArrays s5 = creatorArrays s) by exact Hca2.
  set (tokens := length (stringArrays s2)). clearbody s5 tokens. clear Ho2 Hca2 s2.
  read_returns.
  (* the array of factories *)
  assert (H6 : exists s6 o6 a cs,
             match requestPolicyCreators o2 with
             | Some _ => ret tt
             | None =>
                 bind newCreatorArray (fun creators =>
                   writeOptions l
                     {| requestOptions := requestOptions o2;
                        requestPolicyCreators := Some creators;
                        noRetryPolicy := noRetryPolicy o2;
                        rpRegistrationRetryTimeout := rpRegistrationRetryTimeout o2 |})
             end s5 = (Normal tt, s6) /\
             optionsObjects s6 !! l = Some o6 /\
             requestPolicyCreators o6 = Some a /\
             creatorArrays s6 !! a = Some cs).
  { destruct (requestPolicyCreators o2) as [a|] eqn:Ea.
    - specialize (Harr a eq_refl). rewrite <- Hca5 in Harr.
      destruct (creatorArrays s5 !! a) as [cs|] eqn:Ecs; [|congruence].
      exists s5, o2, a, cs. auto.
    - eexists _, _, _, _. split; [reflexivity|]. simpl.
      split; [eapply lookup_written, Ho5|]. split; [reflexivity|].
      apply lookup_snoc_here. }
  destruct H6 as (s6 & o6 & a & cs & Hrun & Ho & Ha & Hcs).
  eapply bind_returns; [exact Hrun|]. clear Hrun Ho5 Hca5 Harr s5 o2.
  (* the pushes *)
  assert (H7 : exists s7 cs7,
             match credentials with
             | Some c => pushRequestPolicyCreator l (signingFilter c)
             | None => ret tt
             end s6 = (Normal tt, s7) /\
             optionsObjects s7 !! l = Some o6 /\ creatorArrays s7 !! a = Some cs7).
  { destruct credentials as [c|].
    - eexists _, _. split; [eapply pushRequestPolicyCreator_run; eassumption|].
      split; array_lookup.
    - exists s6, cs. auto. }
  destruct H7 as (s7 & cs7 & Hrun & Ho7 & Hcs7).
  eapply bind_returns; [exact Hrun|]. clear Hrun Ho Hcs s6 cs.
  push_returns. push_returns. read_returns. push_returns. read_returns.
  set (s10 := setCreatorArrays _ _).
  assert (Ho10 : optionsObjects s10 !! l = Some o6) by exact Ho7.
  assert (Hcs10 : exists cs10, creatorArrays s10 !! a = Some cs10).
  { eexists. subst s10. array_lookup. }
  destruct Hcs10 as [cs10 Hcs10]. clearbody s10. clear Ho7 Hcs7 s7 cs7.
  assert (H11 : exists s11 cs11,
             (if retryPolicyWanted o6
              then bind (pushRequestPolicyCreator l exponentialRetryPolicyFilter)
                     (fun _ => pushRequestPolicyCreator l systemErrorRetryPolicyFilter)
              else ret tt) s10 = (Normal tt, s11) /\
             optionsObjects s11 !! l = Some o6 /\ creatorArrays s11 !! a = Some cs11).
  { destruct (retryPolicyWanted o6).
    - eexists _, _. split; [|split].
      + erewrite bind_run by (eapply pushRequestPolicyCreator_run; eassumption).
        eapply pushRequestPolicyCreator_run; [array_lookup | eassumption | array_lookup].
      + array_lookup.
      + array_lookup.
    - exists s10, cs10. auto. }
  destruct H11 as (s11 & cs11 & Hrun & Ho11 & Hcs11).
  eapply bind_returns; [exact Hrun|]. clear Hrun.
  read_returns. rewrite Ha.
  eapply bind_returns; [eapply readCreatorArray_run; eassumption|].
  eexists _, _. reflexivity.
Qed.

(** ** The store the constructor leaves *)

Lemma pushRequestPolicyCreator_store l c s u s1 o a cs :
  pushRequestPolicyCreator l c s = (Normal u, s1) ->
  optionsObjects s !! l = Some o -> requestPolicyCreators o = Some a ->
  creatorArrays s !! a = Some cs ->
  optionsObjects s1 = optionsObjects s /\
  creatorArrays s1 = <[a := cs ++ [c]]> (creatorArrays s).
Proof.
  intros H Ho Ha Hcs. destruct u.
  rewrite (pushRequestPolicyCreator_run _ _ _ _ _ _ Ho Ha Hcs) in H.
  injection H as <-. split; reflexivity.
Qed.

Lemma options_eta (o : ServiceClientOptions) :
  {| requestOptions := requestOptions o; requestPolicyCreators := requestPolicyCreators o;
     noRetryPolicy := noRetryPolicy o;
     rpRegistrationRetryTimeout := rpRegistrationRetryTimeout o |} = o.
Proof. destruct o. reflexivity. Qed.

Lemma options_requestOptions_kept (o : ServiceClientOptions) r :
  requestOptions o = Some r ->
  {| requestOptions := Some (default [] (requestOptions o));
     requestPolicyCreators := requestPolicyCreators o;
     noRetryPolicy := noRetryPolicy o;
     rpRegistrationRetryTimeout := rpRegistrationRetryTimeout o |} = o.
Proof. destruct o. simpl. intros ->. reflexivity. Qed.

Ltac push_store H Ho Ha Hcs Hoo Hca s1 :=
  let Hpush := fresh "Hpush" in
  let Hoo' := fresh "Hoo'" in
  let Hca' := fresh "Hca'" in
  apply bind_normal_inv in H as ([] & s1 & Hpush & H);
  destruct (pushRequestPolicyCreator_store _ _ _ _ _ _ _ _ Hpush Ho Ha Hcs) as (Hoo' & Hca');
  apply (fun E => pushRequestPolicyCreator_frame _ _ _ _ _ _ _ _ E Ho Ha Hcs) in Hpush;
  clear Ho Hcs;
  destruct Hpush as (Ho & Hcs & _ & _);
  rewrite Hoo in Hoo'; rewrite Hca, list_insert_insert_eq in Hca'; clear Hoo Hca;
  rename Hoo' into Hoo; rename Hca' into Hca.

Lemma constructor_store credentials options s this s' :
  constructor credentials options s = (Normal this, s') ->
  let o := callerOptions options s in
  let a := creatorsLoc options s in
  optionsObjects s'
  = <[optionsLoc options s := defaultedOptions o a]> (optionsAllocated options s) /\
  creatorArrays s'
  = <[a := callerCreators options s
           ++ defaultCreators credentials o (length (stringArrays s))]>
      (creatorsAllocated options s).
Proof.
  intros H. cbv zeta. unfold constructor in H.
  apply bind_normal_inv in H as (l & s1 & Hopt & H).
  apply bind_normal_inv in H as (o & s0 & Hread & H).
  apply readOptions_inv in Hread as [-> Ho].
  assert (Hl : l = optionsLoc options s /\ o = callerOptions options s /\
               optionsObjects s1 = optionsAllocated options s /\
               creatorArrays s1 = creatorArrays s /\ stringArrays s1 = stringArrays s).
  { destruct options as [l0|]; simpl in *.
    - injection Hopt as <- <-. rewrite Ho. auto.
    - injection Hopt as <- <-. simpl in Ho.
      rewrite lookup_snoc_here in Ho. injection Ho as <-. auto. }
  destruct Hl as (Hl & Hco & Hoo & Hca & Hsa). clear Hopt.
  rewrite <- Hl, <- Hco. unfold creatorsAllocated, creatorsLoc. rewrite <- Hco.
  set (OB := optionsAllocated options s) in *. clearbody OB.
  (* requestOptions *)
  apply bind_normal_inv in H as ([] & s2 & Hreq & H).
  set (o2 := {| requestOptions := Some (default [] (requestOptions o));
                requestPolicyCreators := requestPolicyCreators o;
                noRetryPolicy := noRetryPolicy o;
                rpRegistrationRetryTimeout := rpRegistrationRetryTimeout o |}).
  assert (H2 : optionsObjects s2 !! l = Some o2 /\
               optionsObjects s2 = <[l := o2]> OB /\
               creatorArrays s2 = creatorArrays s /\ stringArrays s2 = stringArrays s).
  { rewrite Hoo in Ho.
    assert (Hkept : forall r, requestOptions o = Some r -> o2 = o)
      by (intros r; apply options_requestOptions_kept).
    assert (Hset : requestOptions o = None ->
                   o2 = {| requestOptions := Some [];
                           requestPolicyCreators := requestPolicyCreators o;
                           noRetryPolicy := noRetryPolicy o;
                           rpRegistrationRetryTimeout := rpRegistrationRetryTimeout o |})
      by (intros E; unfold o2; rewrite E; reflexivity).
    clearbody o2.
    destruct (requestOptions o) as [r|] eqn:E; injection Hreq as <-.
    - rewrite (Hkept r eq_refl).
      rewrite Hoo, list_insert_id by exact Ho. auto.
    - rewrite (Hset eq_refl). simpl. rewrite Hoo.
      split; [eapply lookup_written, Ho | auto]. }
  assert (Hrpc2 : requestPolicyCreators o2 = requestPolicyCreators o) by reflexivity.
  assert (Hretry2 : retryPolicyWanted o2 = retryPolicyWanted o) by reflexivity.
  assert (Hdef2 : forall a, defaultedOptions o a
                            = {| requestOptions := requestOptions o2;
                                 requestPolicyCreators := Some a;
                                 noRetryPolicy := noRetryPolicy o2;
                                 rpRegistrationRetryTimeout := rpRegistrationRetryTimeout o2 |})
    by reflexivity.
  assert (Hdef2' : forall a, requestPolicyCreators o2 = Some a -> defaultedOptions o a = o2).
  { intros a0 E. rewrite Hdef2, <- E. apply options_eta. }
  clearbody o2.
  clear Hreq Ho Hoo Hca Hsa s1.
  destruct H2 as (Ho & Hoo & Hca & Hsa).
  (* the token array *)
  apply bind_normal_inv in H as (tokens & s3 & Hnew & H).
  assert (H3 : optionsObjects s3 = optionsObjects s2 /\ creatorArrays s3 = creatorArrays s2 /\
               stringArrays s3 !! tokens = Some [] /\ tokens = length (stringArrays s)).
  { unfold newStringArray in Hnew. injection Hnew as <- <-. simpl.
    repeat split; [apply lookup_snoc_here | now rewrite Hsa]. }
  destruct H3 as (Hoo3 & Hca3 & Htok & Htokens).
  rewrite <- Hoo3 in Ho, Hoo. rewrite <- Hca3 in Hca.
  clear Hnew Hoo3 Hca3 Hsa s2.
  apply bind_normal_inv in H as ([] & s4 & Hcred & H).
  assert (s4 = s3) as ->.
  { destruct credentials as [c|]; [destruct (signRequest c); [|discriminate Hcred]|];
      injection Hcred as <-; reflexivity. }
  clear Hcred.
  apply bind_normal_inv in H as ([] & s5 & Htoken & H).
  assert (H5 : optionsObjects s5 = optionsObjects s3 /\ creatorArrays s5 = creatorArrays s3).
  { unfold tryCatch in Htoken.
    rewrite (addUserAgentInfo_run _ _ _ []) in Htoken by exact Htok.
    change (indexOf [] _ =? -1)%Z with true in Htoken. simpl in Htoken.
    injection Htoken as <-. split; reflexivity. }
  destruct H5 as (Hoo5 & Hca5). rewrite <- Hoo5 in Ho, Hoo. rewrite <- Hca5 in Hca.
  clear Htoken Htok Hoo5 Hca5 s3.
  (* the array of factories *)
  apply bind_normal_inv in H as (o3 & s0 & Hread & H).
  apply readOptions_inv in Hread as [-> Ho3].
  rewrite Ho in Ho3. injection Ho3 as <-.
  apply bind_normal_inv in H as ([] & s6 & Harr & H).
  set (a := match requestPolicyCreators o with
            | Some a => a
            | None => length (creatorArrays s)
            end) in *.
  set (CB := match requestPolicyCreators o with
             | Some _ => creatorArrays s
             | None => creatorArrays s ++ [[]]
             end) in *.
  assert (H6 : optionsObjects s6 !! l = Some (defaultedOptions o a) /\
               optionsObjects s6 = <[l := defaultedOptions o a]> OB /\
               creatorArrays s6 = CB).
  { subst a CB. rewrite <- Hrpc2.
    destruct (requestPolicyCreators o2) as [a0|] eqn:Ea.
    - injection Harr as <-. rewrite (Hdef2' a0 eq_refl). auto.
    - apply bind_normal_inv in Harr as (a & s0 & Hnew & Harr).
      unfold newCreatorArray in Hnew. injection Hnew as <- <-.
      injection Harr as <-. simpl. rewrite Hca, Hdef2.
      split; [|split; [|reflexivity]].
      + eapply lookup_written, Ho.
      + rewrite Hoo, list_insert_insert_eq. reflexivity. }
  clear Hdef2 Hdef2' Hrpc2 Hretry2.
  clear Harr Ho Hoo Hca s5 o2.
  destruct H6 as (Ho & Hoo & Hca).
  assert (Ha : requestPolicyCreators (defaultedOptions o a) = Some a) by reflexivity.
  assert (Hretry : retryPolicyWanted (defaultedOptions o a) = retryPolicyWanted o)
    by reflexivity.
  assert (Hto : rpRegistrationRetryTimeout (defaultedOptions o a)
                = rpRegistrationRetryTimeout o) by reflexivity.
  set (o6 := defaultedOptions o a) in *. clearbody o6.
  (* the pushes *)
  destruct (CB !! a) as [user|] eqn:Huser.
  2:{ exfalso.
      apply bind_normal_inv in H as ([] & s7 & Hpush & H).
      assert (s7 = s6 \/ creatorArrays s6 !! a <> None) as [->|Hsome].
      { destruct credentials as [c|].
        - right. eapply pushRequestPolicyCreator_needs_array; eauto.
        - left. injection Hpush as <-. reflexivity. }
      - apply bind_normal_inv in H as ([] & s8 & Hpush2 & _).
        eapply pushRequestPolicyCreator_needs_array; eauto. congruence.
      - congruence. }
  assert (Hcs : creatorArrays s6 !! a = Some user) by congruence.
  assert (Hca' : creatorArrays s6 = <[a := user]> CB).
  { rewrite list_insert_id; assumption. }
  clear Hca. rename Hca' into Hca.
  assert (Hcaller : callerCreators options s = user).
  { subst CB a. unfold callerCreators. rewrite Hco in Huser. unfold callerOptions in *.
    destruct options as [l0|].
    - destruct (optionsObjects s !! l0) as [o0|]; simpl in *.
      + destruct (requestPolicyCreators o0) as [a0|].
        * rewrite Huser. reflexivity.
        * rewrite lookup_snoc_here in Huser. congruence.
      + rewrite lookup_snoc_here in Huser. congruence.
    - simpl in Huser. rewrite lookup_snoc_here in Huser. congruence. }
  rewrite Hcaller. clear Hcaller Huser.
  apply bind_normal_inv in H as ([] & s7 & Hpush & H).
  assert (H7 : optionsObjects s7 !! l = Some o6 /\
               optionsObjects s7 = <[l := o6]> OB /\
               exists cs7, creatorArrays s7 !! a = Some cs7 /\
                           creatorArrays s7 = <[a := cs7]> CB /\
                           cs7 = user ++ match credentials with
                                         | Some c => [signingFilter c]
                                         | None => []
                                         end).
  { destruct credentials as [c|].
    - destruct (pushRequestPolicyCreator_store _ _ _ _ _ _ _ _ Hpush Ho Ha Hcs) as (E1 & E2).
      destruct (pushRequestPolicyCreator_frame _ _ _ _ _ _ _ _ Hpush Ho Ha Hcs)
        as (Ho' & Hcs' & _ & _).
      split; [exact Ho'|]. split; [congruence|].
      eexists. split; [exact Hcs'|]. split; [|reflexivity].
      rewrite E2, Hca, list_insert_insert_eq. reflexivity.
    - injection Hpush as <-. split; [exact Ho|]. split; [exact Hoo|].
      exists user. rewrite app_nil_r. auto. }
  clear Hpush Ho Hoo Hcs Hca s6.
  destruct H7 as (Ho & Hoo & cs7 & Hcs & Hca & Hcs7).
  push_store H Ho Ha Hcs Hoo Hca s8.
  push_store H Ho Ha Hcs Hoo Hca s9.
  apply bind_normal_inv in H as (o' & s0 & Hread & H).
  apply readOptions_inv in Hread as [-> Ho'].
  rewrite Ho in Ho'. injection Ho' as <-.
  push_store H Ho Ha Hcs Hoo Hca s10.
  apply bind_normal_inv in H as (o' & s0 & Hread & H).
  apply readOptions_inv in Hread as [-> Ho'].
  rewrite Ho in Ho'. injection Ho' as <-.
  apply bind_normal_inv in H as ([] & s11 & Hretries & H).
  assert (H11 : optionsObjects s11 = <[l := o6]> OB /\
                creatorArrays s11
                = <[a := user ++ defaultCreators credentials o (length (stringArrays s))]> CB).
  { unfold defaultCreators. rewrite <- Hretry, <- Hto, <- Htokens.
    destruct (retryPolicyWanted o6).
    - push_store Hretries Ho Ha Hcs Hoo Hca s12.
      destruct (pushRequestPolicyCreator_store _ _ _ _ _ _ _ _ Hretries Ho Ha Hcs)
        as (E1 & E2).
      split; [congruence|].
      rewrite E2, Hca, list_insert_insert_eq. f_equal. subst cs7.
      rewrite <- !app_assoc. reflexivity.
    - injection Hretries as <-. split; [exact Hoo|].
      rewrite Hca. f_equal. subst cs7. rewrite <- !app_assoc. reflexivity. }
  destruct H11 as (Hoo11 & Hca11).
  apply bind_normal_inv in H as (o' & s0 & Hread & H).
  apply readOptions_inv in Hread as [-> _].
  destruct (requestPolicyCreators o') as [a'|]; [|discriminate H].
  apply bind_normal_inv in H as (creators & s0 & Hread & H).
  apply readCreatorArray_inv in Hread as [-> _].
  injection H as _ <-. split; assumption.
Qed.

(** ** The chain builder (spec section 4.1) *)

(** C1: for every sequence of policy factories, the sender built by
    [createRequestPipeline] runs the policies on the request side in
    registration order (the first factory's policy sees the caller's request,
    each next one what its predecessor passed inward), reaches the transport
    after all of them, and runs them on the response side in the exact
    reverse order (the last factory's policy sees the transport's response
    first, the first factory's policy returns the final one). *)
Theorem createRequestPipeline_order {Request Response}
    (ps : list (Delegating Request Response)) (respond : Request -> Response)
    (request : Request) :
  let sender := createRequestPipeline (map delegatingPolicy ps) (transportSender respond) in
  let answer := respond (outgoing ps request) in
  snd (sender request [])
  = requestSide ps request ++ [Transport (outgoing ps request)]
    ++ responseSide (rev ps) answer /\
  requestOrder (snd (sender request [])) = map policyName ps /\
  responseOrder (snd (sender request [])) = rev (map policyName ps) /\
  fst (sender request []) = incoming (rev ps) answer.
Proof.
  cbv zeta. rewrite delegating_chain_log. simpl.
  repeat split.
  - unfold requestOrder. rewrite flat_map_app. simpl.
    fold (requestOrder (requestSide ps request)).
    fold (requestOrder (responseSide (rev ps) (respond (outgoing ps request)))).
    rewrite (proj1 (requestOrder_requestSide _ _)).
    rewrite (proj2 (responseOrder_responseSide _ _)).
    apply app_nil_r.
  - unfold responseOrder. rewrite flat_map_app. simpl.
    fold (responseOrder (requestSide ps request)).
    fold (responseOrder (responseSide (rev ps) (respond (outgoing ps request)))).
    rewrite (proj2 (requestOrder_requestSide _ _)).
    rewrite (proj1 (responseOrder_responseSide _ _)).
    rewrite map_rev. reflexivity.
Qed.

(** ** The constructed chain *)

(** C2: after every successful construction the factories the
    constructor registered (the chain after the caller's own entries) contain
    a signing policy if and only if a credentials argument was supplied, and
    then it is the one built from that argument.  The caller's own
    [requestPolicyCreators] entries are kept as they are, so the whole chain
    contains a signing policy if and only if credentials were supplied or the
    caller's array already held one; without credentials and without such an
    entry the chain has no signing policy at all. *)
Theorem signing_policy_iff_credentials credentials options s this s' :
  constructor credentials options s = (Normal this, s') ->
  let caller := callerCreators options s in
  let registered := drop (length caller) (chainOf this) in
  httpRequestSender this <> None /\
  chainOf this = caller ++ registered /\
  (existsb isSigningFilter registered = true <-> credentials <> None) /\
  (forall c, credentials = Some c -> In (signingFilter c) registered) /\
  (existsb isSigningFilter (chainOf this) = true
   <-> existsb isSigningFilter caller = true \/ credentials <> None).
Proof.
  intros H. cbv zeta.
  rewrite (registered_constructor _ _ _ _ _ H).
  destruct (chainOf_constructor _ _ _ _ _ H) as [Hsender ->].
  assert (Hiff : existsb isSigningFilter
                   (defaultCreators credentials (callerOptions options s)
                      (length (stringArrays s))) = true <-> credentials <> None).
  { rewrite existsb_signing_defaults. destruct credentials; split; congruence. }
  split; [exact Hsender|]. split; [reflexivity|]. split; [exact Hiff|].
  split.
  - intros c ->. unfold defaultCreators. simpl. left. reflexivity.
  - rewrite existsb_app, orb_true_iff, Hiff. reflexivity.
Qed.

(** C3: with an [options] argument that is absent or an object
    whose [requestPolicyCreators], if any, is an array, and credentials that
    are absent or can sign, the constructor returns a client, and: when
    [options.noRetryPolicy] is true it registers neither the exponential nor
    the system-error retry policy, so the chain holds such a policy only
    where the caller's own [requestPolicyCreators] entries already did; when
    [noRetryPolicy] is absent or false it registers both, so both are in the
    chain. *)
Theorem retry_policies_follow_noRetryPolicy credentials options s :
  optionsArgumentOk options s = true ->
  creatorsArgumentOk options s = true ->
  credentialsArgumentOk credentials = true ->
  exists this s',
    constructor credentials options s = (Normal this, s') /\
    let caller := callerCreators options s in
    let registered := drop (length caller) (chainOf this) in
    let flag := noRetryPolicy (callerOptions options s) in
    chainOf this = caller ++ registered /\
    (flag = Some true ->
     existsb isExponentialRetry registered = false /\
     existsb isSystemErrorRetry registered = false /\
     existsb isExponentialRetry (chainOf this) = existsb isExponentialRetry caller /\
     existsb isSystemErrorRetry (chainOf this) = existsb isSystemErrorRetry caller) /\
    (flag = None \/ flag = Some false ->
     In exponentialRetryPolicyFilter registered /\
     In systemErrorRetryPolicyFilter registered /\
     In exponentialRetryPolicyFilter (chainOf this) /\
     In systemErrorRetryPolicyFilter (chainOf this)).
Proof.
  intros Hopt Harr Hcred.
  destruct (constructor_returns credentials options s) as (this & s' & H).
  { exact Hopt. }
  { intros a Ha. unfold creatorsArgumentOk in Harr. rewrite Ha in Harr.
    apply Nat.ltb_lt, lookup_lt_is_Some in Harr. destruct Harr as [cs Hcs]. congruence. }
  { intros c ->. simpl in Hcred. destruct (signRequest c); congruence. }
  exists this, s'. split; [exact H|]. cbv zeta.
  rewrite (registered_constructor _ _ _ _ _ H).
  destruct (chainOf_constructor _ _ _ _ _ H) as [_ ->].
  set (o := callerOptions options s).
  destruct (existsb_retries_defaults credentials o (length (stringArrays s))) as [He Hs].
  split; [reflexivity|]. split.
  - intros Hflag.
    assert (Hno : retryPolicyWanted o = false) by (unfold retryPolicyWanted; now rewrite Hflag).
    rewrite Hno in He, Hs.
    split; [exact He|]. split; [exact Hs|].
    rewrite !existsb_app, He, Hs, !orb_false_r. split; reflexivity.
  - intros Hflag.
    assert (Hyes : retryPolicyWanted o = true)
      by (unfold retryPolicyWanted; destruct Hflag as [-> | ->]; reflexivity).
    assert (In exponentialRetryPolicyFilter
              (defaultCreators credentials o (length (stringArrays s))) /\
            In systemErrorRetryPolicyFilter
              (defaultCreators credentials o (length (stringArrays s)))) as [Hin1 Hin2].
    { rewrite (defaultCreators_retries _ _ _ Hyes).
      split; apply in_or_app; right; simpl; auto. }
    repeat split; try assumption; apply in_or_app; right; assumption.
Qed.

(** C5: after every successful construction without [noRetryPolicy] set, the
    two innermost policies of the chain are the exponential retry policy and,
    inside it, the system-error retry policy, whose inward delegate is the
    transport; so when the policies delegate, the response the system-error
    retry policy hands back is the one the exponential retry policy sees
    next on the way out. *)
Theorem system_error_retry_inward_of_exponential credentials options s this s' :
  constructor credentials options s = (Normal this, s') ->
  noRetryPolicy (callerOptions options s) <> Some true ->
  exists outer,
    chainOf this = outer ++ [exponentialRetryPolicyFilter; systemErrorRetryPolicyFilter] /\
    httpRequestSender this
    = Some (createRequestPipeline (map policy outer)
              (policy exponentialRetryPolicyFilter
                 (policy systemErrorRetryPolicyFilter httpClient))) /\
    forall Request Response (observe : RequestPolicyCreator -> Delegating Request Response)
           (respond : Request -> Response) (request : Request),
      let exponential := observe exponentialRetryPolicyFilter in
      let systemError := observe systemErrorRetryPolicyFilter in
      let sent := onRequest systemError
                    (onRequest exponential (outgoing (map observe outer) request)) in
      forall chain, httpRequestSender this = Some chain ->
      snd (observeChain observe respond chain request [])
      = requestSide (map observe outer) request
        ++ [SawRequest (policyName exponential) (outgoing (map observe outer) request);
            SawRequest (policyName systemError)
              (onRequest exponential (outgoing (map observe outer) request));
            Transport sent;
            SawResponse (policyName systemError) (respond sent);
            SawResponse (policyName exponential) (onResponse systemError (respond sent))]
        ++ responseSide (rev (map observe outer))
             (onResponse exponential (onResponse systemError (respond sent))).
Proof.
  intros H Hflag.
  pose proof (constructor_inv _ _ _ _ _ H) as Hinv. cbv zeta in Hinv.
  destruct Hinv as (_ & Hsender & _).
  assert (Hyes : retryPolicyWanted (callerOptions options s) = true).
  { unfold retryPolicyWanted.
    destruct (noRetryPolicy (callerOptions options s)) as [[]|]; congruence. }
  rewrite (defaultCreators_retries _ _ _ Hyes), app_assoc in Hsender.
  set (outer := callerCreators options s ++ _) in Hsender.
  exists outer.
  assert (Hchain : httpRequestSender this
                   = Some (createRequestPipeline (map policy outer)
                             (policy exponentialRetryPolicyFilter
                                (policy systemErrorRetryPolicyFilter httpClient)))).
  { rewrite Hsender, map_app, createRequestPipeline_app. reflexivity. }
  split; [|split; [exact Hchain|]].
  - unfold chainOf. rewrite Hsender. apply policies_createRequestPipeline.
  - intros Request Response observe respond request. cbv zeta.
    intros chain Hc. rewrite Hchain in Hc. injection Hc as <-.
    rewrite observeChain_createRequestPipeline, delegating_chain_run.
    simpl. unfold delegatingPolicy, transportSender. simpl.
    rewrite <- !app_assoc. reflexivity.
Qed.

(** C8: when the caller supplies [options.requestPolicyCreators], a
    successful construction leaves in that same array (which the options
    object still refers to) the caller's entries followed by the factories
    the constructor pushed: signing when credentials are given, user-agent,
    redirect, provider registration, and the two retry policies unless
    [noRetryPolicy] is true.  The chain is built from exactly this array, so
    every caller-supplied factory comes before, and hence sits outward of,
    every default one. *)
Theorem defaults_appended_to_caller_array credentials l o a caller s :
  optionsObjects s !! l = Some o ->
  requestPolicyCreators o = Some a ->
  creatorArrays s !! a = Some caller ->
  credentialsArgumentOk credentials = true ->
  exists this s',
    constructor credentials (Some l) s = (Normal this, s') /\
    let defaults :=
      match credentials with Some c => [signingFilter c] | None => [] end
      ++ [msRestUserAgentFilter (value (userAgentInfo this)); redirectFilter;
          rpRegistrationFilter (rpRegistrationRetryTimeout o)]
      ++ (if retryPolicyWanted o
          then [exponentialRetryPolicyFilter; systemErrorRetryPolicyFilter]
          else []) in
    creatorArrays s' !! a = Some (caller ++ defaults) /\
    (exists o', optionsObjects s' !! l = Some o' /\ requestPolicyCreators o' = Some a) /\
    chainOf this = caller ++ defaults /\
    (forall i j c d, caller !! i = Some c -> defaults !! j = Some d ->
       chainOf this !! i = Some c /\ chainOf this !! (length caller + j) = Some d /\
       i < length caller + j).
Proof.
  intros Ho Ha Hcaller Hcred.
  assert (Hco : callerOptions (Some l) s = o) by (unfold callerOptions; now rewrite Ho).
  assert (Hcc : callerCreators (Some l) s = caller).
  { unfold callerCreators. rewrite Ho, Ha, Hcaller. reflexivity. }
  assert (Hcl : creatorsLoc (Some l) s = a) by (unfold creatorsLoc; now rewrite Hco, Ha).
  destruct (constructor_returns credentials (Some l) s) as (this & s' & H).
  { simpl. apply Nat.ltb_lt. eapply lookup_lt_Some, Ho. }
  { rewrite Hco, Ha. intros a' [= <-]. congruence. }
  { intros c ->. simpl in Hcred. destruct (signRequest c); congruence. }
  exists this, s'. split; [exact H|]. cbv zeta.
  pose proof (constructor_inv _ _ _ _ _ H) as Hinv. cbv zeta in Hinv.
  destruct Hinv as (Hua & _ & _ & Harr & _ & _ & _ & Hopt).
  destruct (chainOf_constructor _ _ _ _ _ H) as [_ Hchain].
  rewrite Hco, Hcc in *. rewrite Hcl in *. simpl in Hopt.
  rewrite Hua. simpl. fold (defaultCreators credentials o (length (stringArrays s))).
  split; [exact Harr|]. split; [exact Hopt|]. split; [exact Hchain|].
  intros i j c d Hi Hj. rewrite Hchain. repeat split.
  - apply lookup_app_l_Some. exact Hi.
  - rewrite lookup_app_r by lia.
    replace (length caller + j - length caller) with j by lia. exact Hj.
  - apply lookup_lt_Some in Hi. lia.
Qed.

(** ** The user-agent tokens *)

(** C6: on a client as the constructor made it and any calls of
    [addUserAgentInfo] left it, calling [addUserAgentInfo] twice with the
    same token does what calling it once does and leaves exactly one
    occurrence of the token; calling it with two distinct tokens leaves both
    in the array, each new one appended at the end in the order of the
    calls. *)
Theorem addUserAgentInfo_idempotent_and_ordered credentials options s this s1 earlier s2 :
  constructor credentials options s = (Normal this, s1) ->
  addUserAgentInfos this earlier s1 = (Normal tt, s2) ->
  (forall token,
     exists s3 xs,
       (addUserAgentInfo this token;;; addUserAgentInfo this token) s2 = (Normal tt, s3) /\
       addUserAgentInfo this token s2 = (Normal tt, s3) /\
       tokensOf this s3 = Some xs /\
       count_occ string_dec xs token = 1) /\
  (forall first second,
     first <> second ->
     exists s3 xs,
       tokensOf this s2 = Some xs /\
       (addUserAgentInfo this first;;; addUserAgentInfo this second) s2 = (Normal tt, s3) /\
       tokensOf this s3
       = Some (xs ++ (if in_dec string_dec first xs then [] else [first])
                  ++ (if in_dec string_dec second xs then [] else [second])) /\
       (forall ys, tokensOf this s3 = Some ys -> In first ys /\ In second ys)).
Proof.
  intros Hnew Hearlier.
  pose proof (constructor_tokens _ _ _ _ _ Hnew) as H1.
  destruct (addUserAgentInfos_tokens this earlier s1 _ H1) as (s2' & added & Hrun & H2 & Hdup).
  rewrite Hearlier in Hrun. injection Hrun as <-.
  specialize (Hdup (atMostOnce_singleton _)).
  set (xs := [libraryToken] ++ added) in *. clearbody xs.
  split.
  - intros token.
    destruct (addUserAgentInfo_tokens this token s2 xs H2) as (s3 & Hrun & H3).
    exists s3. eexists. rewrite (bind_run _ _ _ _ _ Hrun).
    assert (Hin : In token (xs ++ if in_dec string_dec token xs then [] else [token])).
    { destruct (in_dec string_dec token xs); apply in_or_app; simpl; auto. }
    split; [eapply addUserAgentInfo_present; eassumption|].
    split; [exact Hrun|]. split; [exact H3|].
    assert (Hle : atMostOnce (xs ++ if in_dec string_dec token xs then [] else [token])).
    { destruct (in_dec string_dec token xs) as [Hi|Ho].
      - rewrite app_nil_r. exact Hdup.
      - apply atMostOnce_snoc; assumption. }
    specialize (Hle token). apply (count_occ_In string_dec) in Hin. lia.
  - intros first second Hne.
    destruct (addUserAgentInfo_tokens this first s2 xs H2) as (s3 & Hrun1 & H3).
    destruct (addUserAgentInfo_tokens this second s3 _ H3) as (s4 & Hrun2 & H4).
    exists s4, xs. rewrite (bind_run _ _ _ _ _ Hrun1).
    split; [exact H2|]. split; [exact Hrun2|].
    assert (Hform : tokensOf this s4
                    = Some (xs ++ (if in_dec string_dec first xs then [] else [first])
                               ++ (if in_dec string_dec second xs then [] else [second]))).
    { rewrite H4, <- app_assoc. do 3 f_equal.
      destruct (in_dec string_dec first xs) as [Hf|Hf];
        destruct (in_dec string_dec second xs) as [Hs|Hs];
        destruct (in_dec string_dec second _) as [Hs'|Hs']; try reflexivity; exfalso.
      - apply Hs'. rewrite app_nil_r. exact Hs.
      - rewrite app_nil_r in Hs'. contradiction.
      - apply Hs'. apply in_or_app. auto.
      - apply in_app_or in Hs' as [?|[?|[]]]; [contradiction | congruence]. }
    split; [exact Hform|].
    intros ys Hys. rewrite Hform in Hys. injection Hys as <-.
    split.
    + destruct (in_dec string_dec first xs) as [Hf|Hf]; apply in_or_app.
      * left. exact Hf.
      * right. left. reflexivity.
    + destruct (in_dec string_dec second xs) as [Hs|Hs]; apply in_or_app.
      * left. exact Hs.
      * right. apply in_or_app. right. left. reflexivity.
Qed.

(** C7: the token array is append-only.  One call of [addUserAgentInfo]
    either leaves the array as it is (the token is already there) or appends
    the token at its end; after any sequence of calls the array is the
    earlier array followed by the added tokens, so every earlier token is
    still at its index. *)
Theorem tokens_append_only this s xs :
  tokensOf this s = Some xs ->
  (forall token,
     exists s1,
       addUserAgentInfo this token s = (Normal tt, s1) /\
       tokensOf this s1 = Some (if in_dec string_dec token xs then xs else xs ++ [token])) /\
  (forall tokens,
     exists s2 added,
       addUserAgentInfos this tokens s = (Normal tt, s2) /\
       tokensOf this s2 = Some (xs ++ added) /\
       forall i token, xs !! i = Some token -> (xs ++ added) !! i = Some token).
Proof.
  intros H. split.
  - intros token. destruct (addUserAgentInfo_tokens this token s xs H) as (s1 & Hrun & H1).
    exists s1. split; [exact Hrun|]. rewrite H1.
    destruct (in_dec string_dec token xs); [rewrite app_nil_r|]; reflexivity.
  - intros tokens.
    destruct (addUserAgentInfos_tokens this tokens s xs H) as (s2 & added & Hrun & H2 & _).
    exists s2, added. split; [exact Hrun|]. split; [exact H2|].
    intros i token Hi. apply lookup_app_l_Some. exact Hi.
Qed.

(** C9: every successful construction leaves the token array holding exactly
    the library token ["ms-rest-js/" ++ msRestVersion], and whatever tokens
    the caller adds afterwards, that token stays the first entry. *)
Theorem constructor_seeds_library_token credentials options s this s' :
  constructor credentials options s = (Normal this, s') ->
  tokensOf this s' = Some [("ms-rest-js/" ++ msRestVersion)%string] /\
  forall tokens,
    exists s2 added,
      addUserAgentInfos this tokens s' = (Normal tt, s2) /\
      tokensOf this s2 = Some (("ms-rest-js/" ++ msRestVersion)%string :: added).
Proof.
  intros H. pose proof (constructor_tokens _ _ _ _ _ H) as Hseed.
  split; [exact Hseed|].
  intros tokens.
  destruct (addUserAgentInfos_tokens this tokens s' _ Hseed) as (s2 & added & Hrun & H2 & _).
  exists s2, added. split; [exact Hrun | exact H2].
Qed.

(** ** Rejected arguments *)

(** C10: a credentials argument without a [signRequest] member never yields
    a client; when the [options] argument is absent or an object, the
    constructor throws the error "credentials argument needs to implement
    signRequest method" right after allocating the (still empty) token
    array: no array of factories is created or changed, so no chain is
    built, and nothing reaches the network. *)
Theorem credentials_without_signRequest_rejected c options s :
  signRequest c = None ->
  (forall this s', constructor (Some c) options s <> (Normal this, s')) /\
  (optionsArgumentOk options s = true ->
   exists s',
     constructor (Some c) options s
     = (Throw (Error "credentials argument needs to implement signRequest method"), s') /\
     creatorArrays s' = creatorArrays s /\
     stringArrays s' = stringArrays s ++ [[]] /\
     wire s' = wire s).
Proof.
  intros Hsign. split.
  - intros this s' H. apply constructor_inv in H. cbv zeta in H.
    destruct H as (_ & _ & _ & _ & _ & _ & Hc & _). exact (Hc c eq_refl Hsign).
  - intros Hok. unfold constructor.
    assert (Hopt : exists l s1 o,
               match options with
               | Some options => ret options
               | None => newOptionsObject emptyOptions
               end s = (Normal l, s1) /\
               optionsObjects s1 !! l = Some o /\ stringArrays s1 = stringArrays s /\
               creatorArrays s1 = creatorArrays s /\ wire s1 = wire s).
    { destruct options as [l|]; simpl in Hok.
      - apply Nat.ltb_lt, lookup_lt_is_Some in Hok. destruct Hok as [o Ho].
        exists l, s, o. auto.
      - eexists _, _, emptyOptions. split; [reflexivity|]. simpl.
        split; [apply lookup_snoc_here | auto]. }
    destruct Hopt as (l & s1 & o & Hrun & Ho & Hsa & Hca & Hw).
    rewrite (bind_run _ _ _ _ _ Hrun), (bind_run _ _ _ _ _ (readOptions_run _ _ _ Ho)).
    destruct (requestOptions o);
      (erewrite bind_run by reflexivity); (erewrite bind_run by reflexivity);
      rewrite Hsign; (erewrite bind_throw by reflexivity);
      eexists; (split; [reflexivity|]); simpl; rewrite Hsa; auto.
Qed.

(** C4: [sendRequest] called with null, undefined, or a value whose type is
    not "object" (such as the number 42) is rejected with the error "options
    cannot be null or undefined and it must be of type object."; the store,
    and with it the network, is left as it was, whatever the chain would do:
    the chain is not invoked. *)
Theorem sendRequest_rejects_non_objects this options s :
  options = JsNull \/ options = JsUndefined \/ typeof options <> "object" ->
  sendRequest this options s
  = (Throw (Error "options cannot be null or undefined and it must be of type object."), s).
Proof.
  intros H. unfold sendRequest.
  assert (Hguard : isNull options || isUndefined options
                   || negb (String.eqb (typeof options) "object") = true).
  { destruct H as [->| [->|H]]; [reflexivity | reflexivity |].
    apply String.eqb_neq in H. rewrite H. simpl. apply orb_true_r. }
  rewrite Hguard. reflexivity.
Qed.

(** For contrast: a [WebResource] that passes validation is handed to the
    chain, and the outcome of the call is the chain's. *)
Lemma sendRequest_reaches_the_chain this chain request s :
  httpRequestSender this = Some chain ->
  validateRequestProperties request = Normal tt ->
  sendRequest this (JsWebResource request) s = policySendRequest chain request s.
Proof.
  intros Hsender Hvalid. unfold sendRequest. simpl.
  unfold tryCatch, bind, lift, ret, throw, httpRequestSender_sendRequest.
  rewrite Hvalid, Hsender.
  destruct (policySendRequest chain request s) as [[response|e] s1]; reflexivity.
Qed.

(** ** More about the constructor *)

Lemma lookup_snoc_other {A} (h : list A) (x : A) (i : nat) :
  i <> length h -> (h ++ [x]) !! i = h !! i.
Proof.
  intros Hne. destruct (Nat.lt_ge_cases i (length h)) as [Hlt|Hge].
  - apply lookup_app_l. exact Hlt.
  - rewrite !lookup_ge_None_2; [reflexivity | lia | rewrite length_app; simpl; lia].
Qed.

Lemma optionsAllocated_other options s l' :
  l' <> optionsLoc options s ->
  optionsAllocated options s !! l' = optionsObjects s !! l'.
Proof.
  unfold optionsAllocated, optionsLoc. destruct options; [reflexivity|].
  apply lookup_snoc_other.
Qed.

Lemma creatorsAllocated_other options s a' :
  a' <> creatorsLoc options s ->
  creatorsAllocated options s !! a' = creatorArrays s !! a'.
Proof.
  unfold creatorsAllocated, creatorsLoc.
  destruct (requestPolicyCreators (callerOptions options s)); [reflexivity|].
  apply lookup_snoc_other.
Qed.

Lemma callerCreators_none options s :
  requestPolicyCreators (callerOptions options s) = None -> callerCreators options s = [].
Proof.
  unfold callerCreators, callerOptions. destruct options as [l|]; [|reflexivity].
  destruct (optionsObjects s !! l) as [o|]; [|reflexivity].
  simpl. intros ->. reflexivity.
Qed.

Lemma defaultCreators_userAgent credentials o tokens :
  In (msRestUserAgentFilter tokens) (defaultCreators credentials o tokens).
Proof.
  unfold defaultCreators. apply in_or_app. right. left. reflexivity.
Qed.

Lemma defaultCreators_userAgent_only credentials o tokens a :
  In (msRestUserAgentFilter a) (defaultCreators credentials o tokens) -> a = tokens.
Proof.
  unfold defaultCreators. intros H.
  apply in_app_or in H as [H|H].
  - destruct credentials; simpl in H; [destruct H as [H|[]]; discriminate H | destruct H].
  - destruct (retryPolicyWanted o); simpl in H;
      repeat (destruct H as [H|H]; [try discriminate H; injection H as <-; reflexivity|]);
      destruct H.
Qed.

Lemma constructor_options_object credentials options s this s' :
  constructor credentials options s = (Normal this, s') ->
  optionsObjects s' !! optionsLoc options s
  = Some (defaultedOptions (callerOptions options s) (creatorsLoc options s)).
Proof.
  intros H.
  destruct (constructor_inv _ _ _ _ _ H) as (_ & _ & _ & _ & _ & _ & _ & o' & Ho' & _).
  destruct (constructor_store _ _ _ _ _ H) as (Hoo & _).
  rewrite Hoo in Ho' |- *. apply lookup_lt_Some in Ho'. rewrite length_insert in Ho'.
  apply list_lookup_insert_eq. exact Ho'.
Qed.

(** X1: a successful construction leaves the options object it worked on
    (the caller's, or a new one when none was given) with [requestOptions]
    as the caller gave it or [{}] when it was absent, with
    [requestPolicyCreators] referring to the array the chain is built from,
    and with [noRetryPolicy] and [rpRegistrationRetryTimeout] as given; no
    other options object is changed. *)
Theorem constructor_defaults_the_options_object credentials options s this s' :
  constructor credentials options s = (Normal this, s') ->
  let o := callerOptions options s in
  exists o',
    optionsObjects s' !! optionsLoc options s = Some o' /\
    requestOptions o' = Some (default [] (requestOptions o)) /\
    requestPolicyCreators o' = Some (creatorsLoc options s) /\
    creatorArrays s' !! creatorsLoc options s = Some (chainOf this) /\
    noRetryPolicy o' = noRetryPolicy o /\
    rpRegistrationRetryTimeout o' = rpRegistrationRetryTimeout o /\
    (forall l', l' <> optionsLoc options s ->
                optionsObjects s' !! l' = optionsObjects s !! l').
Proof.
  intros H. cbv zeta. eexists. split; [eapply constructor_options_object, H|].
  simpl. repeat (split; [reflexivity|]).
  split.
  - destruct (chainOf_constructor _ _ _ _ _ H) as [_ ->].
    destruct (constructor_inv _ _ _ _ _ H) as (_ & _ & _ & Harr & _). exact Harr.
  - repeat (split; [reflexivity|]).
    intros l' Hne. destruct (constructor_store _ _ _ _ _ H) as (-> & _).
    rewrite list_lookup_insert_ne by congruence.
    apply optionsAllocated_other, Hne.
Qed.

(** X2: a successful construction changes no array of factories other than
    the one the chain is built from, leaves every token array that existed
    as it was (the client's own token array is a new one, at the end of the
    store), and puts nothing on the wire. *)
Theorem constructor_frame credentials options s this s' :
  constructor credentials options s = (Normal this, s') ->
  (forall a', a' <> creatorsLoc options s ->
              creatorArrays s' !! a' = creatorArrays s !! a') /\
  value (userAgentInfo this) = length (stringArrays s) /\
  (forall t, t <> value (userAgentInfo this) ->
             stringArrays s' !! t = stringArrays s !! t) /\
  wire s' = wire s.
Proof.
  intros H.
  destruct (constructor_inv _ _ _ _ _ H) as (Hua & _ & Hsa & _ & Hw & _).
  destruct (constructor_store _ _ _ _ _ H) as (_ & Hca).
  split; [|split; [|split]].
  - intros a' Hne. rewrite Hca, list_lookup_insert_ne by congruence.
    apply creatorsAllocated_other, Hne.
  - rewrite Hua. reflexivity.
  - intros t Hne. rewrite Hua in Hne. simpl in Hne. rewrite Hsa.
    apply lookup_snoc_other, Hne.
  - exact Hw.
Qed.

(** X3: when the caller supplies no [requestPolicyCreators] (no options, or
    options without that property), a successful construction builds the
    chain from the defaults alone, in the order signing (only with
    credentials), user-agent, redirect, provider registration (with the
    caller's timeout as given, undefined when absent), exponential retry and
    system-error retry (unless [noRetryPolicy] is true), and adds one new
    array holding exactly these factories to the store. *)
Theorem constructor_without_caller_factories credentials options s this s' :
  requestPolicyCreators (callerOptions options s) = None ->
  constructor credentials options s = (Normal this, s') ->
  let o := callerOptions options s in
  chainOf this
  = match credentials with Some c => [signingFilter c] | None => [] end
    ++ [msRestUserAgentFilter (value (userAgentInfo this)); redirectFilter;
        rpRegistrationFilter (rpRegistrationRetryTimeout o)]
    ++ (if retryPolicyWanted o
        then [exponentialRetryPolicyFilter; systemErrorRetryPolicyFilter]
        else []) /\
  creatorArrays s' = creatorArrays s ++ [chainOf this].
Proof.
  intros Hnone H. cbv zeta.
  destruct (constructor_inv _ _ _ _ _ H) as (Hua & _).
  destruct (chainOf_constructor _ _ _ _ _ H) as [_ Hchain].
  destruct (constructor_store _ _ _ _ _ H) as (_ & Hca).
  rewrite (callerCreators_none _ _ Hnone) in Hchain, Hca. simpl in Hchain, Hca.
  unfold creatorsAllocated, creatorsLoc in Hca. rewrite Hnone in Hca.
  rewrite insert_snoc_here in Hca.
  rewrite Hchain, Hca, Hua. split; reflexivity.
Qed.

(** X4: passing the same options object to a second construction makes the
    second client's chain the first client's whole chain followed by a second
    set of defaults: the array in the options object accumulates.  The second
    chain therefore still holds the first client's user-agent policy, bound
    to the first client's token array, which is not the second client's. *)
Theorem reused_options_accumulate_defaults credentials1 credentials2 l s this1 s1 this2 s2 :
  constructor credentials1 (Some l) s = (Normal this1, s1) ->
  constructor credentials2 (Some l) s1 = (Normal this2, s2) ->
  let o := callerOptions (Some l) s in
  chainOf this2
  = chainOf this1
    ++ match credentials2 with Some c => [signingFilter c] | None => [] end
    ++ [msRestUserAgentFilter (value (userAgentInfo this2)); redirectFilter;
        rpRegistrationFilter (rpRegistrationRetryTimeout o)]
    ++ (if retryPolicyWanted o
        then [exponentialRetryPolicyFilter; systemErrorRetryPolicyFilter]
        else []) /\
  In (msRestUserAgentFilter (value (userAgentInfo this1))) (chainOf this2) /\
  value (userAgentInfo this2) <> value (userAgentInfo this1).
Proof.
  intros H1 H2. cbv zeta.
  pose proof (constructor_options_object _ _ _ _ _ H1) as Ho1. simpl in Ho1.
  destruct (constructor_inv _ _ _ _ _ H1) as (Hua1 & _ & Hsa1 & Harr1 & _).
  destruct (chainOf_constructor _ _ _ _ _ H1) as [_ Hchain1].
  destruct (constructor_inv _ _ _ _ _ H2) as (Hua2 & _).
  destruct (chainOf_constructor _ _ _ _ _ H2) as [_ Hchain2].
  assert (Hco : callerOptions (Some l) s1
                = defaultedOptions (callerOptions (Some l) s) (creatorsLoc (Some l) s)).
  { unfold callerOptions at 1. rewrite Ho1. reflexivity. }
  assert (Hcc : callerCreators (Some l) s1 = chainOf this1).
  { unfold callerCreators. rewrite Ho1. simpl. rewrite Harr1, Hchain1. reflexivity. }
  rewrite Hco, Hcc in Hchain2.
  assert (Hne : value (userAgentInfo this2) <> value (userAgentInfo this1)).
  { rewrite Hua1, Hua2, Hsa1, length_app. simpl. lia. }
  split; [|split; [|exact Hne]].
  - rewrite Hchain2, Hua2. reflexivity.
  - rewrite Hchain2. apply in_or_app. left. rewrite Hchain1, Hua1.
    apply in_or_app. right. apply defaultCreators_userAgent.
Qed.

(** X5: the [signRequest] check comes after the defaulting of
    [requestOptions]: a construction rejected for its credentials has already
    set [options.requestOptions] to [{}] on the caller's object when it was
    absent (and kept it otherwise); the object's other properties are as the
    caller gave them. *)
Theorem rejected_construction_defaults_requestOptions c l o s :
  signRequest c = None ->
  optionsObjects s !! l = Some o ->
  exists s',
    constructor (Some c) (Some l) s
    = (Throw (Error "credentials argument needs to implement signRequest method"), s') /\
    optionsObjects s' !! l
    = Some {| requestOptions := Some (default [] (requestOptions o));
              requestPolicyCreators := requestPolicyCreators o;
              noRetryPolicy := noRetryPolicy o;
              rpRegistrationRetryTimeout := rpRegistrationRetryTimeout o |}.
Proof.
  intros Hsign Ho. unfold constructor.
  erewrite bind_run by reflexivity.
  rewrite (bind_run _ _ _ _ _ (readOptions_run _ _ _ Ho)).
  destruct (requestOptions o) as [r|] eqn:E;
    (erewrite bind_run by reflexivity); (erewrite bind_run by reflexivity);
    rewrite Hsign; (erewrite bind_throw by reflexivity);
    eexists; (split; [reflexivity|]); simpl.
  - rewrite Ho. f_equal. rewrite <- E at 1. symmetry. apply options_eta.
  - eapply lookup_written, Ho.
Qed.

(** X6: with an [options] argument that is absent or an object whose
    [requestPolicyCreators], if any, is an array, the [signRequest] check is
    the only way the constructor fails: it returns a client exactly when the
    credentials are absent or have a [signRequest] member. *)
Theorem constructor_returns_iff_credentials_ok credentials options s :
  optionsArgumentOk options s = true ->
  creatorsArgumentOk options s = true ->
  (exists this s', constructor credentials options s = (Normal this, s'))
  <-> credentialsArgumentOk credentials = true.
Proof.
  intros Hopt Harr. split.
  - intros (this & s' & H).
    destruct (constructor_inv _ _ _ _ _ H) as (_ & _ & _ & _ & _ & _ & Hsign & _).
    unfold credentialsArgumentOk. destruct credentials as [c|]; [|reflexivity].
    specialize (Hsign c eq_refl). destruct (signRequest c); [reflexivity | congruence].
  - intros Hcred. apply constructor_returns.
    + exact Hopt.
    + intros a Ha. unfold creatorsArgumentOk in Harr. rewrite Ha in Harr.
      apply Nat.ltb_lt, lookup_lt_is_Some in Harr. destruct Harr as [cs Hcs]. congruence.
    + intros c ->. simpl in Hcred. destruct (signRequest c); congruence.
Qed.

(** ** More about the tokens *)

Lemma addUserAgentInfo_store this token s xs :
  tokensOf this s = Some xs ->
  exists s1,
    addUserAgentInfo this token s = (Normal tt, s1) /\
    creatorArrays s1 = creatorArrays s /\ optionsObjects s1 = optionsObjects s /\
    wire s1 = wire s /\
    (forall a, a <> value (userAgentInfo this) ->
               stringArrays s1 !! a = stringArrays s !! a) /\
    tokensOf this s1 = Some (xs ++ if in_dec string_dec token xs then [] else [token]).
Proof.
  intros H. destruct (in_dec string_dec token xs) as [Hin|Hout].
  - exists s. rewrite (addUserAgentInfo_present _ _ _ _ H Hin), app_nil_r. auto 10.
  - eexists. rewrite (addUserAgentInfo_new _ _ _ _ H Hout).
    split; [reflexivity|]. simpl. repeat (split; [reflexivity|]). split.
    + intros a Hne. apply list_lookup_insert_ne. congruence.
    + eapply tokensOf_written, H.
Qed.

Lemma addUserAgentInfos_store this tokens :
  forall s xs,
    tokensOf this s = Some xs ->
    exists s2 ys,
      addUserAgentInfos this tokens s = (Normal tt, s2) /\
      creatorArrays s2 = creatorArrays s /\ optionsObjects s2 = optionsObjects s /\
      wire s2 = wire s /\
      (forall a, a <> value (userAgentInfo this) ->
                 stringArrays s2 !! a = stringArrays s !! a) /\
      tokensOf this s2 = Some ys /\
      (forall token, In token ys <-> In token xs \/ In token tokens).
Proof.
  induction tokens as [|t ts IH]; intros s xs H; simpl.
  - exists s, xs. repeat (split; [reflexivity || exact H|]).
    intros token. split; [left; assumption | intros [Hin|[]]; exact Hin].
  - destruct (addUserAgentInfo_store this t s xs H)
      as (s1 & Hrun & Hca & Hoo & Hw & Hsa & H1).
    destruct (IH _ _ H1) as (s2 & ys & Hruns & Hca2 & Hoo2 & Hw2 & Hsa2 & H2 & Hin).
    exists s2, ys. rewrite (bind_run _ _ _ _ _ Hrun).
    split; [exact Hruns|]. split; [congruence|]. split; [congruence|].
    split; [congruence|]. split.
    { intros a Hne. rewrite Hsa2, Hsa by exact Hne. reflexivity. }
    split; [exact H2|].
    intros token. rewrite Hin, in_app_iff. split.
    + intros [[Hx|Hnew]|Hts].
      * left. exact Hx.
      * right. left. destruct (in_dec string_dec t xs); [destruct Hnew|].
        destruct Hnew as [->|[]]. reflexivity.
      * right. right. exact Hts.
    + intros [Hx|[<-|Hts]].
      * left. left. exact Hx.
      * left. destruct (in_dec string_dec t xs) as [Hi|Ho];
          [left; exact Hi | right; left; reflexivity].
      * right. exact Hts.
Qed.

(** X7: on a client whose token array is in the store, [addUserAgentInfo]
    returns normally and touches nothing but that array: every other token
    array, every array of factories, every options object and the wire are
    as before. *)
Theorem addUserAgentInfo_touches_only_own_array this token s xs :
  tokensOf this s = Some xs ->
  exists s1,
    addUserAgentInfo this token s = (Normal tt, s1) /\
    (forall a, a <> value (userAgentInfo this) ->
               stringArrays s1 !! a = stringArrays s !! a) /\
    creatorArrays s1 = creatorArrays s /\
    optionsObjects s1 = optionsObjects s /\
    wire s1 = wire s.
Proof.
  intros H.
  destruct (addUserAgentInfo_store this token s xs H) as (s1 & Hrun & Hca & Hoo & Hw & Hsa & _).
  exists s1. auto.
Qed.

(** X8: clients do not share tokens.  Constructing a new client gives it a
    token array of its own, different from that of any client already in the
    store, and neither the construction nor any tokens added to the new
    client change the tokens of the other. *)
Theorem clients_keep_their_own_tokens other xs credentials options s this s1 tokens s2 :
  tokensOf other s = Some xs ->
  constructor credentials options s = (Normal this, s1) ->
  addUserAgentInfos this tokens s1 = (Normal tt, s2) ->
  value (userAgentInfo this) <> value (userAgentInfo other) /\
  tokensOf other s1 = Some xs /\
  tokensOf other s2 = Some xs.
Proof.
  intros Hother Hnew Hadd.
  destruct (constructor_inv _ _ _ _ _ Hnew) as (Hua & _ & Hsa & _).
  pose proof (constructor_tokens _ _ _ _ _ Hnew) as Hseed.
  assert (Hne : value (userAgentInfo other) <> value (userAgentInfo this)).
  { unfold tokensOf in Hother. apply lookup_lt_Some in Hother. rewrite Hua. simpl. lia. }
  assert (H1 : tokensOf other s1 = Some xs).
  { unfold tokensOf in *. rewrite Hsa. apply lookup_app_l_Some. exact Hother. }
  split; [congruence|]. split; [exact H1|].
  destruct (addUserAgentInfos_store this tokens s1 _ Hseed)
    as (s2' & ys & Hrun & _ & _ & _ & Hframe & _).
  rewrite Hadd in Hrun. injection Hrun as <-.
  unfold tokensOf in *. rewrite Hframe by exact Hne. exact H1.
Qed.

(** X9: the token array of a client never holds a token twice, whatever
    tokens are added after construction and however often. *)
Theorem tokens_never_repeat credentials options s this s1 tokens s2 xs :
  constructor credentials options s = (Normal this, s1) ->
  addUserAgentInfos this tokens s1 = (Normal tt, s2) ->
  tokensOf this s2 = Some xs ->
  List.NoDup xs.
Proof.
  intros Hnew Hadd Hxs.
  pose proof (constructor_tokens _ _ _ _ _ Hnew) as Hseed.
  destruct (addUserAgentInfos_tokens this tokens s1 _ Hseed) as (s2' & added & Hrun & H2 & Hdup).
  rewrite Hadd in Hrun. injection Hrun as <-.
  rewrite H2 in Hxs. injection Hxs as <-.
  apply (NoDup_count_occ string_dec). apply Hdup, atMostOnce_singleton.
Qed.

(** X10: after construction and any calls of [addUserAgentInfo], the token
    array holds exactly the library token and the tokens that were added:
    nothing else gets in and no added token is lost. *)
Theorem tokens_are_the_added_ones credentials options s this s1 tokens s2 xs :
  constructor credentials options s = (Normal this, s1) ->
  addUserAgentInfos this tokens s1 = (Normal tt, s2) ->
  tokensOf this s2 = Some xs ->
  forall token,
    In token xs <-> token = ("ms-rest-js/" ++ msRestVersion)%string \/ In token tokens.
Proof.
  intros Hnew Hadd Hxs token.
  pose proof (constructor_tokens _ _ _ _ _ Hnew) as Hseed.
  destruct (addUserAgentInfos_store this tokens s1 _ Hseed)
    as (s2' & ys & Hrun & _ & _ & _ & _ & H2 & Hin).
  rewrite Hadd in Hrun. injection Hrun as <-.
  rewrite H2 in Hxs. injection Hxs as <-.
  rewrite Hin. simpl. unfold libraryToken. simpl.
  split; (intros [H|H]; [left | right; exact H]).
  - destruct H as [<-|[]]. reflexivity.
  - left. symmetry. exact H.
Qed.

(** X11: the user-agent policy the constructor registers is bound to the
    client's own token array and to no other, so every token added after
    construction is in the array that policy reads, without rebuilding the
    chain. *)
Theorem userAgent_policy_reads_the_clients_array credentials options s this s1 :
  constructor credentials options s = (Normal this, s1) ->
  let registered := drop (length (callerCreators options s)) (chainOf this) in
  In (msRestUserAgentFilter (value (userAgentInfo this))) registered /\
  (forall a, In (msRestUserAgentFilter a) registered -> a = value (userAgentInfo this)) /\
  forall tokens s2,
    addUserAgentInfos this tokens s1 = (Normal tt, s2) ->
    exists xs,
      stringArrays s2 !! value (userAgentInfo this) = Some xs /\
      forall token, In token tokens -> In token xs.
Proof.
  intros Hnew. cbv zeta.
  rewrite (registered_constructor _ _ _ _ _ Hnew).
  destruct (constructor_inv _ _ _ _ _ Hnew) as (Hua & _).
  rewrite Hua. simpl.
  split; [apply defaultCreators_userAgent|].
  split; [apply defaultCreators_userAgent_only|].
  intros tokens s2 Hadd.
  pose proof (constructor_tokens _ _ _ _ _ Hnew) as Hseed.
  destruct (addUserAgentInfos_store this tokens s1 _ Hseed)
    as (s2' & ys & Hrun & _ & _ & _ & _ & H2 & Hin).
  rewrite Hadd in Hrun. injection Hrun as <-.
  exists ys. unfold tokensOf in H2. rewrite Hua in H2. simpl in H2.
  split; [exact H2|]. intros token Ht. apply Hin. right. exact Ht.
Qed.

(** ** More about [sendRequest] *)

(** X12: a request that cannot be built is never sent.  When
    [validateRequestProperties] throws for a [WebResource], or [prepare]
    throws for any other object, [sendRequest] is rejected with that very
    error and the store is as before, whatever the chain would do. *)
Theorem sendRequest_rejects_unusable_requests this options e s :
  (exists request, options = JsWebResource request /\
                   validateRequestProperties request = Throw e) \/
  (exists o, options = JsObject o /\ prepare newWebResource options = Throw e) ->
  sendRequest this options s = (Throw e, s).
Proof.
  intros [(request & -> & Hfail)|(o & -> & Hfail)];
    unfold sendRequest; simpl;
    unfold tryCatch, bind, lift, throw; rewrite Hfail; reflexivity.
Qed.

(** X13: for a [WebResource] that passes validation, and for any other
    object that [prepare] turns into a request, [sendRequest] behaves exactly
    as [pipeline] on that request: the chain's response is returned as it is,
    and an error thrown by the chain is passed on unchanged, with the store
    as the chain left it. *)
Theorem sendRequest_is_pipeline this options request s :
  (options = JsWebResource request /\ validateRequestProperties request = Normal tt) \/
  (exists o, options = JsObject o /\ prepare newWebResource options = Normal request) ->
  sendRequest this options s = pipeline this request s.
Proof.
  intros [(-> & Hok)|(o & -> & Hok)];
    unfold sendRequest, pipeline; simpl;
    unfold tryCatch, bind, lift, ret, throw; rewrite Hok;
    destruct (httpRequestSender_sendRequest this request s) as [[response|e] s1];
    reflexivity.
Qed.

End ServiceClient.

(** ** The theorems at sample inputs

    Requests are strings here, the library version is "0.1.0". *)

Lemma signing_policy_iff_credentials_witness :
  (exists this s',
     constructor string "0.1.0" (Some (signingCredentials string)) None (emptyStore string)
     = (Normal this, s') /\
     In (signingFilter string (signingCredentials string))
        (drop (length (callerCreators string None (emptyStore string)))
           (chainOf string this))) /\
  (exists this s',
     constructor string "0.1.0" None None (emptyStore string) = (Normal this, s') /\
     existsb (isSigningFilter string) (chainOf string this) = false).
Proof.
  split.
  - eexists _, _.
    match goal with |- ?R /\ _ => assert (Hrun : R) by (vm_compute; reflexivity) end.
    split; [exact Hrun|].
    exact (proj1 (proj2 (proj2 (proj2
             (signing_policy_iff_credentials string "0.1.0" _ _ _ _ _ Hrun)))) _ eq_refl).
  - eexists _, _.
    match goal with |- ?R /\ _ => assert (Hrun : R) by (vm_compute; reflexivity) end.
    split; [exact Hrun|].
    destruct (signing_policy_iff_credentials string "0.1.0" _ _ _ _ _ Hrun)
      as (_ & _ & _ & _ & Hwhole).
    destruct (existsb (isSigningFilter string) (chainOf string _)) eqn:E; [|reflexivity].
    destruct (proj1 Hwhole eq_refl) as [Hcaller|Hcred].
    + discriminate Hcaller.
    + exfalso. apply Hcred. reflexivity.
Defined.

Lemma retry_policies_follow_noRetryPolicy_witness :
  (optionsArgumentOk string (Some 0) (callerStore string) = true /\
   creatorsArgumentOk string (Some 0) (callerStore string) = true /\
   noRetryPolicy (callerOptions string (Some 0) (callerStore string)) = Some true /\
   exists this s',
     constructor string "0.1.0" None (Some 0) (callerStore string) = (Normal this, s') /\
     existsb (isExponentialRetry string) (chainOf string this) = false /\
     existsb (isSystemErrorRetry string) (chainOf string this) = false) /\
  (noRetryPolicy (callerOptions string None (emptyStore string)) = None /\
   exists this s',
     constructor string "0.1.0" None None (emptyStore string) = (Normal this, s') /\
     In (exponentialRetryPolicyFilter string) (chainOf string this) /\
     In (systemErrorRetryPolicyFilter string) (chainOf string this)).
Proof.
  split.
  - split; [reflexivity|]. split; [reflexivity|]. split; [reflexivity|].
    destruct (retry_policies_follow_noRetryPolicy string "0.1.0" None (Some 0)
                (callerStore string) eq_refl eq_refl eq_refl)
      as (this & s' & Hrun & _ & Homitted & _).
    exists this, s'. split; [exact Hrun|].
    destruct (Homitted eq_refl) as (_ & _ & He & Hs).
    split; [exact He | exact Hs].
  - split; [reflexivity|].
    destruct (retry_policies_follow_noRetryPolicy string "0.1.0" None None
                (emptyStore string) eq_refl eq_refl eq_refl)
      as (this & s' & Hrun & _ & _ & Hincluded).
    exists this, s'. split; [exact Hrun|].
    destruct (Hincluded (or_introl eq_refl)) as (_ & _ & He & Hs).
    split; [exact He | exact Hs].
Defined.

Lemma system_error_retry_inward_of_exponential_witness :
  exists this s',
    constructor string "0.1.0" None None (emptyStore string) = (Normal this, s') /\
    noRetryPolicy (callerOptions string None (emptyStore string)) <> Some true /\
    exists outer,
      chainOf string this
      = outer ++ [exponentialRetryPolicyFilter string; systemErrorRetryPolicyFilter string].
Proof.
  eexists _, _.
  match goal with |- ?R /\ _ => assert (Hrun : R) by (vm_compute; reflexivity) end.
  split; [exact Hrun|].
  assert (Hflag : noRetryPolicy (callerOptions string None (emptyStore string))
                  <> Some true) by (simpl; discriminate).
  split; [exact Hflag|].
  destruct (system_error_retry_inward_of_exponential string "0.1.0" None None
              (emptyStore string) _ _ Hrun Hflag) as (outer & Hchain & _).
  exists outer. exact Hchain.
Defined.

Lemma defaults_appended_to_caller_array_witness :
  exists this s',
    constructor string "0.1.0" (Some (signingCredentials string)) (Some 0) (callerStore string)
    = (Normal this, s') /\
    creatorArrays string s' !! 0
    = Some [callerFilter string "logging"; signingFilter string (signingCredentials string);
            msRestUserAgentFilter string 0; redirectFilter string;
            rpRegistrationFilter string (Some 30%Z)] /\
    chainOf string this
    = [callerFilter string "logging"; signingFilter string (signingCredentials string);
       msRestUserAgentFilter string 0; redirectFilter string;
       rpRegistrationFilter string (Some 30%Z)].
Proof.
  destruct (defaults_appended_to_caller_array string "0.1.0"
              (Some (signingCredentials string)) 0
              {| requestOptions := None; requestPolicyCreators := Some 0;
                 noRetryPolicy := Some true; rpRegistrationRetryTimeout := Some 30%Z |}
              0 [callerFilter string "logging"] (callerStore string)
              eq_refl eq_refl eq_refl eq_refl)
    as (this & s' & Hrun & Harray & _ & Hchain & _).
  exists this, s'. split; [exact Hrun|].
  vm_compute in Hrun. injection Hrun as <- <-.
  split; [exact Harray | exact Hchain].
Defined.

Lemma addUserAgentInfo_idempotent_and_ordered_witness :
  exists this s1 s2,
    constructor string "0.1.0" None None (emptyStore string) = (Normal this, s1) /\
    addUserAgentInfos string this ["app/1.0"] s1 = (Normal tt, s2) /\
    exists s3 xs,
      bind string (addUserAgentInfo string this "azure-sdk/2")
        (fun _ => addUserAgentInfo string this "azure-sdk/2") s2 = (Normal tt, s3) /\
      addUserAgentInfo string this "azure-sdk/2" s2 = (Normal tt, s3) /\
      tokensOf string this s3 = Some xs /\
      count_occ string_dec xs "azure-sdk/2" = 1.
Proof.
  eexists _, _, _.
  match goal with |- ?R /\ _ => assert (Hrun : R) by (vm_compute; reflexivity) end.
  split; [exact Hrun|].
  match goal with |- ?R /\ _ => assert (Hadd : R) by (vm_compute; reflexivity) end.
  split; [exact Hadd|].
  exact (proj1 (addUserAgentInfo_idempotent_and_ordered string "0.1.0" None None
                  (emptyStore string) _ _ ["app/1.0"] _ Hrun Hadd) "azure-sdk/2").
Defined.

Lemma tokens_append_only_witness :
  tokensOf string (bareClient string) (tokenStore string)
  = Some ["ms-rest-js/0.1.0"; "app/1.0"] /\
  exists s2 added,
    addUserAgentInfos string (bareClient string) ["app/1.0"; "azure-sdk/2"] (tokenStore string)
    = (Normal tt, s2) /\
    tokensOf string (bareClient string) s2 = Some (["ms-rest-js/0.1.0"; "app/1.0"] ++ added) /\
    forall i token,
      ["ms-rest-js/0.1.0"; "app/1.0"] !! i = Some token ->
      (["ms-rest-js/0.1.0"; "app/1.0"] ++ added) !! i = Some token.
Proof.
  split; [reflexivity|].
  exact (proj2 (tokens_append_only string (bareClient string) (tokenStore string)
                  ["ms-rest-js/0.1.0"; "app/1.0"] eq_refl) ["app/1.0"; "azure-sdk/2"]).
Defined.

Lemma constructor_seeds_library_token_witness :
  exists this s',
    constructor string "0.1.0" (Some (signingCredentials string)) (Some 0) (callerStore string)
    = (Normal this, s') /\
    tokensOf string this s' = Some ["ms-rest-js/0.1.0"].
Proof.
  eexists _, _.
  match goal with |- ?R /\ _ => assert (Hrun : R) by (vm_compute; reflexivity) end.
  split; [exact Hrun|].
  exact (proj1 (constructor_seeds_library_token string "0.1.0" _ _ _ _ _ Hrun)).
Defined.

Lemma credentials_without_signRequest_rejected_witness :
  signRequest string (unsignedCredentials string) = None /\
  optionsArgumentOk string (Some 0) (callerStore string) = true /\
  exists s',
    constructor string "0.1.0" (Some (unsignedCredentials string)) (Some 0) (callerStore string)
    = (Throw (Error "credentials argument needs to implement signRequest method"), s') /\
    creatorArrays string s' = creatorArrays string (callerStore string) /\
    stringArrays string s' = stringArrays string (callerStore string) ++ [[]] /\
    wire string s' = wire string (callerStore string).
Proof.
  split; [reflexivity|]. split; [reflexivity|].
  exact (proj2 (credentials_without_signRequest_rejected string "0.1.0"
                  (unsignedCredentials string) (Some 0) (callerStore string) eq_refl)
           eq_refl).
Defined.

Lemma sendRequest_rejects_non_objects_witness :
  typeof string unit (JsNumber string unit 42) <> "object" /\
  sendRequest string string unit (wireSender string string (fun request => request))
    (fun _ => Normal tt) "" (fun request _ => Normal request)
    (bareClient string) (JsNumber string unit 42) (emptyStore string)
  = (Throw (Error "options cannot be null or undefined and it must be of type object."),
     emptyStore string).
Proof.
  assert (H : typeof string unit (JsNumber string unit 42) <> "object")
    by (simpl; discriminate).
  split; [exact H|].
  apply sendRequest_rejects_non_objects. right. right. exact H.
Defined.

(** ** Chains that keep what the caller's array already held *)

(** A chain can hold a signing policy although no credentials were supplied.
    It happens when an options object is used twice: [o = {}],
    [new ServiceClient(credentials, o)], then [new ServiceClient(undefined, o)].
    The second client gets no credentials, yet its chain, built from the array
    the first construction left in [o], starts with the first client's signing
    policy. *)
Lemma signing_policy_without_credentials :
  exists this1 s1 this2 s2,
    constructor string "0.1.0" (Some (signingCredentials string)) (Some 0)
      (blankOptionsStore string) = (Normal this1, s1) /\
    constructor string "0.1.0" None (Some 0) s1 = (Normal this2, s2) /\
    chainOf string this2
    = [signingFilter string (signingCredentials string);
       msRestUserAgentFilter string 0; redirectFilter string;
       rpRegistrationFilter string None;
       exponentialRetryPolicyFilter string; systemErrorRetryPolicyFilter string;
       msRestUserAgentFilter string 1; redirectFilter string;
       rpRegistrationFilter string None;
       exponentialRetryPolicyFilter string; systemErrorRetryPolicyFilter string] /\
    ~ (existsb (isSigningFilter string) (chainOf string this2) = true
       <-> (None : option (ServiceClientCredentials string)) <> None).
Proof.
  eexists _, _, _, _.
  split; [vm_compute; reflexivity|].
  split; [vm_compute; reflexivity|].
  split; [reflexivity|].
  intros [Hpresent _]. apply (Hpresent eq_refl). reflexivity.
Qed.

(** A chain can hold both retry policies although [noRetryPolicy] is true: when
    the caller's own [requestPolicyCreators] holds the retry factories, the
    constructor adds none, but keeps the caller's. *)
Lemma retry_policies_kept_with_noRetryPolicy :
  exists this s',
    constructor string "0.1.0" None (Some 0) (retryingCallerStore string)
    = (Normal this, s') /\
    noRetryPolicy (callerOptions string (Some 0) (retryingCallerStore string)) = Some true /\
    chainOf string this
    = [exponentialRetryPolicyFilter string; systemErrorRetryPolicyFilter string;
       msRestUserAgentFilter string 0; redirectFilter string;
       rpRegistrationFilter string None] /\
    existsb (isExponentialRetry string) (chainOf string this) = true /\
    existsb (isSystemErrorRetry string) (chainOf string this) = true.
Proof.
  eexists _, _.
  split; [vm_compute; reflexivity|].
  repeat split.
Qed.

(** ** Worked examples *)

(** A client built without arguments: the default chain and the seeded token
    array. *)
Example constructor_default :
  constructor string "0.1.0" None None (emptyStore string)
  = (Normal
       {| userAgentInfo := {| value := 0 |};
          httpRequestSender :=
            Some (policy string (msRestUserAgentFilter string 0)
                    (policy string (redirectFilter string)
                       (policy string (rpRegistrationFilter string None)
                          (policy string (exponentialRetryPolicyFilter string)
                             (policy string (systemErrorRetryPolicyFilter string)
                                (httpClient string)))))) |},
     {| stringArrays := [["ms-rest-js/0.1.0"]];
        creatorArrays :=
          [[msRestUserAgentFilter string 0; redirectFilter string;
            rpRegistrationFilter string None; exponentialRetryPolicyFilter string;
            systemErrorRetryPolicyFilter string]];
        optionsObjects :=
          [{| requestOptions := Some []; requestPolicyCreators := Some 0;
              noRetryPolicy := None; rpRegistrationRetryTimeout := None |}];
        wire := [] |}).
Proof. reflexivity. Qed.

(** [sendRequest(null)] is rejected like [sendRequest(42)]. *)
Example sendRequest_null :
  sendRequest string string unit (wireSender string string (fun request => request))
    (fun _ => Normal tt) "" (fun request _ => Normal request)
    (bareClient string) (JsNull string unit) (emptyStore string)
  = (Throw (Error "options cannot be null or undefined and it must be of type object."),
     emptyStore string).
Proof. reflexivity. Qed.

(** A [WebResource] goes through the chain and reaches the wire. *)
Example sendRequest_webResource :
  sendRequest string string unit (wireSender string string (fun request => request))
    (fun _ => Normal tt) "" (fun request _ => Normal request)
    {| userAgentInfo := {| value := 0 |}; httpRequestSender := Some (httpClient string) |}
    (JsWebResource string unit "GET /") (emptyStore string)
  = (Normal "GET /",
     {| stringArrays := []; creatorArrays := []; optionsObjects := [];
        wire := ["GET /"] |}).
Proof. reflexivity. Qed.

(** Three delegating policies around a transport that answers "200": the
    request goes a, b, c, wire; the response comes back c, b, a. *)
Example three_policies_order :
  let named name := {| policyName := name; onRequest := fun r : string => r;
                       onResponse := fun r : string => r |} in
  snd (createRequestPipeline (map delegatingPolicy [named "a"; named "b"; named "c"])
         (transportSender (fun _ => "200")) "GET /" [])
  = [SawRequest "a" "GET /"; SawRequest "b" "GET /"; SawRequest "c" "GET /";
     Transport "GET /";
     SawResponse "c" "200"; SawResponse "b" "200"; SawResponse "a" "200"].
Proof. reflexivity. Qed.

(** ** The further properties at sample inputs *)

Lemma constructor_defaults_the_options_object_witness :
  exists this s' o',
    constructor string "0.1.0" None (Some 0) (callerStore string) = (Normal this, s') /\
    optionsObjects string s' !! 0 = Some o' /\
    requestOptions o' = Some [] /\
    requestPolicyCreators o' = Some 0 /\
    noRetryPolicy o' = Some true.
Proof.
  assert (Hrun : exists this s',
             constructor string "0.1.0" None (Some 0) (callerStore string)
             = (Normal this, s')) by (eexists _, _; vm_compute; reflexivity).
  destruct Hrun as (this & s' & Hrun).
  destruct (constructor_defaults_the_options_object string "0.1.0" _ _ _ _ _ Hrun)
    as (o' & Ho' & Hro & Hrpc & _ & Hnr & _).
  exists this, s', o'. split; [exact Hrun|]. split; [exact Ho'|].
  split; [exact Hro|]. split; [exact Hrpc | exact Hnr].
Defined.

Lemma constructor_frame_witness :
  exists this s',
    constructor string "0.1.0" None None (tokenStore string) = (Normal this, s') /\
    value (userAgentInfo string this) = 1 /\
    stringArrays string s' !! 0 = Some ["ms-rest-js/0.1.0"; "app/1.0"] /\
    wire string s' = [].
Proof.
  eexists _, _.
  match goal with |- ?R /\ _ => assert (Hrun : R) by (vm_compute; reflexivity) end.
  split; [exact Hrun|].
  destruct (constructor_frame string "0.1.0" _ _ _ _ _ Hrun) as (_ & Hvalue & Hold & Hwire).
  split; [exact Hvalue|]. split; [|exact Hwire].
  rewrite (Hold 0); [reflexivity | rewrite Hvalue; simpl; lia].
Defined.

Lemma constructor_without_caller_factories_witness :
  exists this s',
    requestPolicyCreators (callerOptions string None (emptyStore string)) = None /\
    constructor string "0.1.0" (Some (signingCredentials string)) None (emptyStore string)
    = (Normal this, s') /\
    creatorArrays string s'
    = [[signingFilter string (signingCredentials string); msRestUserAgentFilter string 0;
        redirectFilter string; rpRegistrationFilter string None;
        exponentialRetryPolicyFilter string; systemErrorRetryPolicyFilter string]].
Proof.
  eexists _, _. split; [reflexivity|].
  match goal with |- ?R /\ _ => assert (Hrun : R) by (vm_compute; reflexivity) end.
  split; [exact Hrun|].
  destruct (constructor_without_caller_factories string "0.1.0" _ None (emptyStore string)
              _ _ eq_refl Hrun) as (Hchain & Harray).
  rewrite Harray, Hchain. reflexivity.
Defined.

Lemma reused_options_accumulate_defaults_witness :
  exists this1 s1 this2 s2,
    constructor string "0.1.0" None (Some 0) (callerStore string) = (Normal this1, s1) /\
    constructor string "0.1.0" None (Some 0) s1 = (Normal this2, s2) /\
    chainOf string this2
    = [callerFilter string "logging";
       msRestUserAgentFilter string 0; redirectFilter string;
       rpRegistrationFilter string (Some 30%Z);
       msRestUserAgentFilter string 1; redirectFilter string;
       rpRegistrationFilter string (Some 30%Z)].
Proof.
  eexists _, _, _, _.
  match goal with |- ?R /\ _ => assert (Hrun1 : R) by (vm_compute; reflexivity) end.
  split; [exact Hrun1|].
  match goal with |- ?R /\ _ => assert (Hrun2 : R) by (vm_compute; reflexivity) end.
  split; [exact Hrun2|].
  destruct (reused_options_accumulate_defaults string "0.1.0" _ _ _ _ _ _ _ _ Hrun1 Hrun2)
    as (Hchain & _).
  rewrite Hchain. reflexivity.
Defined.

Lemma rejected_construction_defaults_requestOptions_witness :
  exists s',
    constructor string "0.1.0" (Some (unsignedCredentials string)) (Some 0) (callerStore string)
    = (Throw (Error "credentials argument needs to implement signRequest method"), s') /\
    optionsObjects string s' !! 0
    = Some {| requestOptions := Some []; requestPolicyCreators := Some 0;
              noRetryPolicy := Some true; rpRegistrationRetryTimeout := Some 30%Z |}.
Proof.
  exact (rejected_construction_defaults_requestOptions string "0.1.0"
           (unsignedCredentials string) 0
           {| requestOptions := None; requestPolicyCreators := Some 0;
              noRetryPolicy := Some true; rpRegistrationRetryTimeout := Some 30%Z |}
           (callerStore string) eq_refl eq_refl).
Defined.

Lemma constructor_returns_iff_credentials_ok_witness :
  optionsArgumentOk string (Some 0) (callerStore string) = true /\
  creatorsArgumentOk string (Some 0) (callerStore string) = true /\
  exists this s',
    constructor string "0.1.0" (Some (signingCredentials string)) (Some 0) (callerStore string)
    = (Normal this, s').
Proof.
  split; [reflexivity|]. split; [reflexivity|].
  exact (proj2 (constructor_returns_iff_credentials_ok string "0.1.0"
                  (Some (signingCredentials string)) (Some 0) (callerStore string)
                  eq_refl eq_refl) eq_refl).
Defined.

Lemma addUserAgentInfo_touches_only_own_array_witness :
  tokensOf string (bareClient string) (tokenStore string)
  = Some ["ms-rest-js/0.1.0"; "app/1.0"] /\
  exists s1,
    addUserAgentInfo string (bareClient string) "azure-sdk/2" (tokenStore string)
    = (Normal tt, s1) /\
    creatorArrays string s1 = [] /\ optionsObjects string s1 = [] /\ wire string s1 = [].
Proof.
  split; [reflexivity|].
  destruct (addUserAgentInfo_touches_only_own_array string (bareClient string) "azure-sdk/2"
              (tokenStore string) _ eq_refl) as (s1 & Hrun & _ & Hca & Hoo & Hw).
  exists s1. auto.
Defined.

Lemma clients_keep_their_own_tokens_witness :
  exists this s1 s2,
    tokensOf string (bareClient string) (tokenStore string)
    = Some ["ms-rest-js/0.1.0"; "app/1.0"] /\
    constructor string "0.1.0" None None (tokenStore string) = (Normal this, s1) /\
    addUserAgentInfos string this ["other/3"] s1 = (Normal tt, s2) /\
    tokensOf string (bareClient string) s2 = Some ["ms-rest-js/0.1.0"; "app/1.0"].
Proof.
  eexists _, _, _. split; [reflexivity|].
  match goal with |- ?R /\ _ => assert (Hrun : R) by (vm_compute; reflexivity) end.
  split; [exact Hrun|].
  match goal with |- ?R /\ _ => assert (Hadd : R) by (vm_compute; reflexivity) end.
  split; [exact Hadd|].
  exact (proj2 (proj2 (clients_keep_their_own_tokens string "0.1.0" (bareClient string) _
                         None None (tokenStore string) _ _ ["other/3"] _
                         eq_refl Hrun Hadd))).
Defined.

Lemma tokens_never_repeat_witness :
  exists this s1 s2 xs,
    constructor string "0.1.0" None None (emptyStore string) = (Normal this, s1) /\
    addUserAgentInfos string this ["app/1.0"; "app/1.0"; "ms-rest-js/0.1.0"] s1
    = (Normal tt, s2) /\
    tokensOf string this s2 = Some xs /\
    List.NoDup xs.
Proof.
  eexists _, _, _, _.
  match goal with |- ?R /\ _ => assert (Hrun : R) by (vm_compute; reflexivity) end.
  split; [exact Hrun|].
  match goal with |- ?R /\ _ => assert (Hadd : R) by (vm_compute; reflexivity) end.
  split; [exact Hadd|].
  match goal with |- ?R /\ _ => assert (Hxs : R) by (vm_compute; reflexivity) end.
  split; [exact Hxs|].
  exact (tokens_never_repeat string "0.1.0" _ _ _ _ _ _ _ _ Hrun Hadd Hxs).
Defined.

Lemma tokens_are_the_added_ones_witness :
  exists this s1 s2 xs,
    constructor string "0.1.0" None None (emptyStore string) = (Normal this, s1) /\
    addUserAgentInfos string this ["app/1.0"; "azure-sdk/2"] s1 = (Normal tt, s2) /\
    tokensOf string this s2 = Some xs /\
    (In "azure-sdk/2" xs <-> "azure-sdk/2" = "ms-rest-js/0.1.0"
                              \/ In "azure-sdk/2" ["app/1.0"; "azure-sdk/2"]).
Proof.
  eexists _, _, _, _.
  match goal with |- ?R /\ _ => assert (Hrun : R) by (vm_compute; reflexivity) end.
  split; [exact Hrun|].
  match goal with |- ?R /\ _ => assert (Hadd : R) by (vm_compute; reflexivity) end.
  split; [exact Hadd|].
  match goal with |- ?R /\ _ => assert (Hxs : R) by (vm_compute; reflexivity) end.
  split; [exact Hxs|].
  exact (tokens_are_the_added_ones string "0.1.0" _ _ _ _ _ _ _ _ Hrun Hadd Hxs
           "azure-sdk/2").
Defined.

Lemma userAgent_policy_reads_the_clients_array_witness :
  exists this s1,
    constructor string "0.1.0" None (Some 0) (callerStore string) = (Normal this, s1) /\
    In (msRestUserAgentFilter string (value (userAgentInfo string this)))
       (drop (length (callerCreators string (Some 0) (callerStore string)))
          (chainOf string this)).
Proof.
  eexists _, _.
  match goal with |- ?R /\ _ => assert (Hrun : R) by (vm_compute; reflexivity) end.
  split; [exact Hrun|].
  exact (proj1 (userAgent_policy_reads_the_clients_array string "0.1.0" _ _ _ _ _ Hrun)).
Defined.

Lemma sendRequest_rejects_unusable_requests_witness :
  sendRequest string string unit (wireSender string string (fun request => request))
    (fun request => if String.eqb request "" then Throw (Error "url is required")
                    else Normal tt)
    "" (fun request _ => Normal request)
    {| userAgentInfo := {| value := 0 |}; httpRequestSender := Some (httpClient string) |}
    (JsWebResource string unit "") (emptyStore string)
  = (Throw (Error "url is required"), emptyStore string).
Proof.
  apply sendRequest_rejects_unusable_requests.
  left. exists "". split; reflexivity.
Defined.

Lemma sendRequest_is_pipeline_witness :
  sendRequest string string unit (wireSender string string (fun request => request))
    (fun _ => Normal tt) "" (fun _ _ => Normal "POST /prepared")
    {| userAgentInfo := {| value := 0 |}; httpRequestSender := Some (httpClient string) |}
    (JsObject string unit tt) (emptyStore string)
  = pipeline string string (wireSender string string (fun request => request))
      {| userAgentInfo := {| value := 0 |}; httpRequestSender := Some (httpClient string) |}
      "POST /prepared" (emptyStore string).
Proof.
  apply sendRequest_is_pipeline.
  right. exists tt. split; reflexivity.
Defined.

(** ** The sample script *)

Section RevokeTokensSampleProperties.
Import RevokeTokensSample.
Context {Client Date World : Type}.
Variable answer : forall call : Call Client Date, World -> Settled (Result call) * World.
Variable clock : World -> Date.

(** X14: the connection string the sample uses is never empty: it is the
    environment variable when that is set to a non-empty string, and the
    placeholder both when the variable is not set and when it is set to the
    empty string. *)
Theorem connectionString_fallback (env : option string) :
  connectionString env <> "" /\
  (forall v, env = Some v -> v <> "" -> connectionString env = v) /\
  (env = None \/ env = Some "" ->
   connectionString env = "<communication service connection string>").
Proof using Type.
  unfold connectionString. split; [|split].
  - destruct env as [v|]; [|discriminate].
    destruct (String.eqb_spec v ""); [discriminate | assumption].
  - intros v -> Hv. apply String.eqb_neq in Hv. rewrite Hv. reflexivity.
  - intros [-> | ->]; reflexivity.
Qed.

(** A rejected run of a script that does not throw by itself ends with the
    call that was rejected. *)
Lemma run_rejected {A} (p : Script Client Date A) :
  rejectedOnlyByCalls p ->
  forall w error w1 events,
    run answer clock p w = (Rejected error, w1, events) ->
    exists before call w0,
      events = before ++ [Invoked call] /\ answer call w0 = (Rejected error, w1).
Proof using Type.
  induction p as [a|thrown|call k IH|args k IH|args k IH|k IH];
    intros Hp w error w1 events H; simpl in H, Hp.
  - discriminate H.
  - destruct Hp.
  - destruct (answer call w) as [[x|e] w'] eqn:E.
    + destruct (run answer clock (k x) w') as [[outcome w2] events'] eqn:Ek.
      injection H as -> -> <-.
      destruct (IH _ (Hp x) _ _ _ _ Ek) as (before & call' & w0 & -> & Hcall).
      exists (Invoked call :: before), call', w0. split; [reflexivity | exact Hcall].
    + injection H as <- <- <-. exists [], call, w. split; [reflexivity | exact E].
  - destruct (run answer clock k w) as [[outcome w2] events'] eqn:Ek.
    injection H as -> -> <-.
    destruct (IH Hp _ _ _ _ Ek) as (before & call' & w0 & -> & Hcall).
    exists (Logged args :: before), call', w0. split; [reflexivity | exact Hcall].
  - destruct (run answer clock k w) as [[outcome w2] events'] eqn:Ek.
    injection H as -> -> <-.
    destruct (IH Hp _ _ _ _ Ek) as (before & call' & w0 & -> & Hcall).
    exists (LoggedError args :: before), call', w0. split; [reflexivity | exact Hcall].
  - destruct (run answer clock (k (clock w)) w) as [[outcome w2] events'] eqn:Ek.
    injection H as -> -> <-.
    destruct (IH _ (Hp (clock w)) _ _ _ _ Ek) as (before & call' & w0 & -> & Hcall).
    exists (ReadClock :: before), call', w0. split; [reflexivity | exact Hcall].
Qed.

Lemma main_rejectedOnlyByCalls (cs : string) :
  rejectedOnlyByCalls (main (Client := Client) (Date := Date) cs).
Proof using Type.
  unfold main. simpl. intros client user issued1 issued2 issued3 now []. exact I.
Qed.

Ltac run_main :=
  unfold main; cbn;
  repeat match goal with
         | |- context [answer ?call ?w] =>
             destruct (answer call w) as [[?|?] ?]; cbn
         end.

(** X15: when a call made by [main] is rejected, that call is the last thing
    [main] does, and the handler of [main().catch] runs.  If the rejection
    value is neither [null] nor [undefined], the sample makes exactly four
    [console.error] calls (the message, the error's request, the error's
    response, the error itself), calls nothing else, and its promise is
    fulfilled.  If the value is [null] or [undefined], reading
    [error.request] throws after the first [console.error] call: nothing more
    is logged and the sample's promise is rejected with that TypeError. *)
Theorem sample_reports_a_rejection (env : option string) w error w1 events :
  run answer clock (main (connectionString env)) w = (Rejected error, w1, events) ->
  (exists before call w0,
     events = before ++ [Invoked call] /\ answer call w0 = (Rejected error, w1)) /\
  sample answer clock env w
  = match error with
    | ThrownValue requestProperty responseProperty _ =>
        (Fulfilled tt, w1,
         events
         ++ [LoggedError [Text "Encountered an error while revoking tokens: "];
             LoggedError [Text ("Request: " ++ newline); Property requestProperty];
             LoggedError [Text (newline ++ "Response: " ++ newline);
                          Property responseProperty];
             LoggedError [Whole error]])
    | ThrownUndefined | ThrownNull =>
        (Rejected propertyTypeError, w1,
         events ++ [LoggedError [Text "Encountered an error while revoking tokens: "]])
    end.
Proof using Type.
  intros H. split.
  - eapply run_rejected; [apply main_rejectedOnlyByCalls | exact H].
  - unfold sample, catch. rewrite H. destruct error; reflexivity.
Qed.

(** X16: the sample's promise is rejected only when a call made by [main] was
    rejected with [null] or [undefined], and then with the TypeError of
    reading [error.request]; in every other run it is fulfilled.  When [main]
    runs to its end the sample does what [main] did and [console.error] is
    not called. *)
Theorem sample_rejected_only_for_null_or_undefined (env : option string) w :
  (forall failure w1 events,
     sample answer clock env w = (Rejected failure, w1, events) ->
     failure = propertyTypeError /\
     exists error events0,
       run answer clock (main (connectionString env)) w = (Rejected error, w1, events0) /\
       (error = ThrownNull \/ error = ThrownUndefined)) /\
  (forall w1 events,
     run answer clock (main (connectionString env)) w = (Fulfilled tt, w1, events) ->
     sample answer clock env w = (Fulfilled tt, w1, events) /\
     errorsLogged events = []).
Proof using Type.
  split.
  - intros failure w1 events. unfold sample, catch.
    destruct (run answer clock (main (connectionString env)) w)
      as [[[[]|error] w0] events0]; [discriminate|].
    destruct error as [| |requestProperty responseProperty text]; simpl; intros H.
    + injection H as <- <- _. split; [reflexivity|]. eauto.
    + injection H as <- <- _. split; [reflexivity|]. eauto.
    + discriminate H.
  - intros w1 events H. split.
    + unfold sample, catch. rewrite H. reflexivity.
    + revert H. run_main; intros H; try discriminate H;
        injection H as _ <-; reflexivity.
Qed.

(** X17: tokens are revoked only once everything before has succeeded.  If
    [revokeTokens] is called at all, the calls [main] made are exactly: the
    client's construction from the connection string, [createUser], three
    [issueToken] calls for the created user with the scope "chat", and that
    one [revokeTokens] call, for the same client and the same user. *)
Theorem tokens_revoked_only_after_three_issued (cs : string) w client user date :
  In (revokeTokens client user date)
     (invocations (snd (run answer clock (main cs) w))) ->
  invocations (snd (run answer clock (main cs) w))
  = [newCommunicationIdentityClient cs; createUser client;
     issueToken client user ["chat"]; issueToken client user ["chat"];
     issueToken client user ["chat"]; revokeTokens client user date].
Proof using Type.
  run_main; intros H;
    repeat (destruct H as [H|H]; [try discriminate H|]); try contradiction;
    injection H as <- <- <-; reflexivity.
Qed.

End RevokeTokensSampleProperties.

Lemma sample_reports_a_rejection_witness :
  RevokeTokensSample.sample RevokeTokensSample.serviceDenies (fun w => w) (Some "endpoint=x") 0
  = (RevokeTokensSample.Fulfilled tt, 2,
     [RevokeTokensSample.Logged [RevokeTokensSample.Text "== Issue Token Sample =="];
      RevokeTokensSample.Invoked
        (RevokeTokensSample.newCommunicationIdentityClient "endpoint=x");
      RevokeTokensSample.Logged [RevokeTokensSample.Text "Creating User"];
      RevokeTokensSample.Invoked (RevokeTokensSample.createUser "endpoint=x")]
     ++ [RevokeTokensSample.LoggedError
           [RevokeTokensSample.Text "Encountered an error while revoking tokens: "];
         RevokeTokensSample.LoggedError
           [RevokeTokensSample.Text ("Request: " ++ RevokeTokensSample.newline);
            RevokeTokensSample.Property (Some "POST /identities")];
         RevokeTokensSample.LoggedError
           [RevokeTokensSample.Text
              (RevokeTokensSample.newline ++ "Response: " ++ RevokeTokensSample.newline);
            RevokeTokensSample.Property (Some "401")];
         RevokeTokensSample.LoggedError
           [RevokeTokensSample.Whole RevokeTokensSample.unauthorized]]) /\
  RevokeTokensSample.sample RevokeTokensSample.serviceRejectsWithNull (fun w => w)
    (Some "endpoint=x") 0
  = (RevokeTokensSample.Rejected RevokeTokensSample.propertyTypeError, 2,
     [RevokeTokensSample.Logged [RevokeTokensSample.Text "== Issue Token Sample =="];
      RevokeTokensSample.Invoked
        (RevokeTokensSample.newCommunicationIdentityClient "endpoint=x");
      RevokeTokensSample.Logged [RevokeTokensSample.Text "Creating User"];
      RevokeTokensSample.Invoked (RevokeTokensSample.createUser "endpoint=x")]
     ++ [RevokeTokensSample.LoggedError
           [RevokeTokensSample.Text "Encountered an error while revoking tokens: "]]).
Proof.
  split.
  - exact (proj2 (sample_reports_a_rejection RevokeTokensSample.serviceDenies (fun w => w)
                    (Some "endpoint=x") 0 RevokeTokensSample.unauthorized 2 _ eq_refl)).
  - exact (proj2 (sample_reports_a_rejection RevokeTokensSample.serviceRejectsWithNull
                    (fun w => w) (Some "endpoint=x") 0 RevokeTokensSample.ThrownNull 2 _
                    eq_refl)).
Defined.

Lemma tokens_revoked_only_after_three_issued_witness :
  RevokeTokensSample.invocations
    (snd (RevokeTokensSample.run RevokeTokensSample.serviceUp (fun w => w)
            (RevokeTokensSample.main "endpoint=x") 0))
  = [RevokeTokensSample.newCommunicationIdentityClient "endpoint=x";
     RevokeTokensSample.createUser "endpoint=x";
     RevokeTokensSample.issueToken "endpoint=x"
       {| RevokeTokensSample.communicationUserId := "8:acs:user" |} ["chat"];
     RevokeTokensSample.issueToken "endpoint=x"
       {| RevokeTokensSample.communicationUserId := "8:acs:user" |} ["chat"];
     RevokeTokensSample.issueToken "endpoint=x"
       {| RevokeTokensSample.communicationUserId := "8:acs:user" |} ["chat"];
     RevokeTokensSample.revokeTokens "endpoint=x"
       {| RevokeTokensSample.communicationUserId := "8:acs:user" |} 5].
Proof.
  apply (tokens_revoked_only_after_three_issued RevokeTokensSample.serviceUp (fun w => w)).
  vm_compute. do 5 right. left. reflexivity.
Defined.
